(** * BaseViewSet: central error handling and perform_* hooks

    A shallow embedding of [base_viewset_mixin.py]: the error envelope built by
    [_error_response], the first-match chain of [BaseViewSet.handle_exception],
    the safe wrappers [get_queryset] / [get_object], the before/perform/after
    pipelines and [success_response]. *)

From Stdlib Require Import List String ZArith Bool Lia.
Import ListNotations.
Local Open Scope string_scope.
Local Open Scope Z_scope.

Set Warnings "-register-all".

(** ** Python values carried by a response body *)

(** The JSON-like data the handler puts into a [Response]: [None], strings,
    integers, lists and dicts.  A dict keeps its insertion order, as Python's
    does, so it is an association list whose keys are kept distinct by
    [dict_set]. *)
Inductive Value : Type :=
| VNone
| VStr (s : string)
| VInt (z : Z)
| VList (items : list Value)
| VDict (items : list (string * Value)).

Definition Dict : Type := list (string * Value).

(** [d.get(k)] *)
Fixpoint dict_get (k : string) (d : Dict) : option Value :=
  match d with
  | [] => None
  | (k', v) :: rest => if String.eqb k k' then Some v else dict_get k rest
  end.

(** [d[k] = v]: overwrite in place when the key is there, append otherwise. *)
Fixpoint dict_set (k : string) (v : Value) (d : Dict) : Dict :=
  match d with
  | [] => [(k, v)]
  | (k', v') :: rest =>
      if String.eqb k k' then (k', v) :: rest else (k', v') :: dict_set k v rest
  end.

(** [d.update(extra)] *)
Definition dict_update (d extra : Dict) : Dict :=
  fold_left (fun acc kv => dict_set (fst kv) (snd kv) acc) extra d.

Definition dict_keys (d : Dict) : list string := map fst d.

(** Truth value of [extra] in [if extra:], for [extra : dict | None]. *)
Definition truthy (extra : option Dict) : bool :=
  match extra with
  | Some (_ :: _) => true
  | _ => false
  end.

(** ** Responses *)

(** [rest_framework.response.Response(data, status=...)]. *)
Record Response : Type := mkResponse {
  resp_data : Value;
  resp_status : Z
}.

(** The constants of [rest_framework.status] the module uses. *)
Module status.
Definition HTTP_200_OK : Z := 200.
Definition HTTP_400_BAD_REQUEST : Z := 400.
Definition HTTP_403_FORBIDDEN : Z := 403.
Definition HTTP_404_NOT_FOUND : Z := 404.
Definition HTTP_405_METHOD_NOT_ALLOWED : Z := 405.
Definition HTTP_406_NOT_ACCEPTABLE : Z := 406.
Definition HTTP_409_CONFLICT : Z := 409.
Definition HTTP_415_UNSUPPORTED_MEDIA_TYPE : Z := 415.
Definition HTTP_429_TOO_MANY_REQUESTS : Z := 429.
Definition HTTP_500_INTERNAL_SERVER_ERROR : Z := 500.
Definition HTTP_503_SERVICE_UNAVAILABLE : Z := 503.
End status.

(** [_error_response(message, code, status_code, errors=None, extra=None)].
    [errors] is [VNone] when the caller passes nothing. *)
Definition _error_response (message code : string) (status_code : Z)
    (errors : Value) (extra : option Dict) : Response :=
  let inner : Dict :=
    [("code", VStr code); ("message", VStr message); ("details", errors)] in
  let inner' : Dict :=
    if truthy extra
    then dict_update inner (match extra with Some x => x | None => [] end)
    else inner in
  mkResponse (VDict [("error", VDict inner')]) status_code.

(** The inner object of an error body, and one of its fields. *)
Definition error_object (r : Response) : option Dict :=
  match resp_data r with
  | VDict [("error", VDict inner)] => Some inner
  | _ => None
  end.

Definition error_field (k : string) (r : Response) : option Value :=
  match error_object r with
  | Some inner => dict_get k inner
  | None => None
  end.

(** ** Exceptions *)

(** The exception classes the module imports and tests with [isinstance]. *)
Inductive ExcClass : Type :=
| ObjectDoesNotExist | MultipleObjectsReturned | PermissionDenied
| DjangoValidationError | FieldDoesNotExist | SuspiciousOperation
| DisallowedHost | ImproperlyConfigured
| IntegrityError | OperationalError | ProgrammingError | DataError
| DatabaseError | ProtectedError | RestrictedError | Http404
| APIException | AuthenticationFailed | NotAuthenticated
| DRFPermissionDenied | NotFound | MethodNotAllowed | NotAcceptable
| UnsupportedMediaType | Throttled | DRFValidationError | ParseError.

Scheme Equality for ExcClass.

(** A model instance, observed by the handler only through [str(obj)]. *)
Record Obj : Type := mkObj { obj_str : string }.

(** An exception object, by what the module reads from it.  [mro] lists the
    classes above that occur in [type(exc).__mro__]; an exception of a class
    the module does not know has none.  Attributes read under [hasattr] or
    [getattr] with a default are options. *)
Record Exc : Type := mkExc {
  mro : list ExcClass;
  exc_str : string;                                (* str(exc) *)
  detail : Value;                                  (* exc.detail *)
  detail_repr : string;                            (* str(exc.detail) of a list or dict detail *)
  status_code : Z;                                 (* exc.status_code *)
  default_code : option string;                    (* exc.default_code *)
  wait : option Z;                                 (* exc.wait *)
  message_dict : option (list (string * list string));   (* exc.message_dict *)
  messages : list string;                          (* exc.messages *)
  protected_objects : option (list Obj)            (* exc.protected_objects *)
}.

(** [isinstance(exc, c)] and [isinstance(exc, (c1, ..., cn))]. *)
Definition isinstance (exc : Exc) (c : ExcClass) : bool :=
  existsb (ExcClass_beq c) (mro exc).

Definition isinstance_any (exc : Exc) (cs : list ExcClass) : bool :=
  existsb (isinstance exc) cs.

(** [str(exc.detail)]: an [ErrorDetail] is a [str] and prints as its text. *)
Definition str_detail (exc : Exc) : string :=
  match detail exc with
  | VStr s => s
  | _ => detail_repr exc
  end.

(** [rest_framework.exceptions.NotFound(detail=d)], as [get_queryset] and
    [get_object] raise it. *)
Definition new_NotFound (d : string) : Exc :=
  {| mro := [NotFound; APIException];
     exc_str := d;
     detail := VStr d;
     detail_repr := d;
     status_code := status.HTTP_404_NOT_FOUND;
     default_code := Some "not_found";
     wait := None;
     message_dict := None;
     messages := [];
     protected_objects := None |}.

(** ** Logging *)

Inductive Level : Type := DEBUG | WARNING | ERROR | CRITICAL.

(** One call on [logger]: its level, its format string and whether the
    traceback is attached.  The formatted arguments are left out. *)
Record LogRecord : Type := mkLog {
  log_level : Level;
  log_format : string;
  log_exc_info : bool
}.

(** ** The view set *)

Record ViewSet : Type := mkViewSet {
  LOG_REQUESTS : bool;
  SAFE_DB_ERRORS : bool
}.

Definition message_dict_value (d : list (string * list string)) : Value :=
  VDict (map (fun kv => (fst kv, VList (map VStr (snd kv)))) d).

(** [BaseViewSet.handle_exception(self, exc)]: the log entries written and the
    response returned. *)
Definition handle_exception (self : ViewSet) (exc : Exc)
    : list LogRecord * Response :=
  (* DRF native exceptions *)
  if isinstance exc DRFValidationError then
    ([mkLog DEBUG "Validation error: %s" false],
     _error_response "Invalid input." "validation_error"
       status.HTTP_400_BAD_REQUEST (detail exc) None)
  else if isinstance exc ParseError then
    ([mkLog DEBUG "Parse error: %s" false],
     _error_response "Malformed request body." "parse_error"
       status.HTTP_400_BAD_REQUEST (detail exc) None)
  else if isinstance_any exc [NotAuthenticated; AuthenticationFailed] then
    ([mkLog DEBUG "Auth error (%s): %s" false],
     _error_response (str_detail exc) "authentication_error"
       (status_code exc) VNone None)
  else if isinstance_any exc [DRFPermissionDenied] then
    ([mkLog WARNING "Permission denied: %s" false],
     _error_response (str_detail exc) "permission_denied"
       status.HTTP_403_FORBIDDEN VNone None)
  else if isinstance exc NotFound then
    ([mkLog DEBUG "Not found: %s" false],
     _error_response (str_detail exc) "not_found"
       status.HTTP_404_NOT_FOUND VNone None)
  else if isinstance exc MethodNotAllowed then
    ([],
     _error_response (str_detail exc) "method_not_allowed"
       status.HTTP_405_METHOD_NOT_ALLOWED VNone None)
  else if isinstance exc NotAcceptable then
    ([],
     _error_response (str_detail exc) "not_acceptable"
       status.HTTP_406_NOT_ACCEPTABLE VNone None)
  else if isinstance exc UnsupportedMediaType then
    ([],
     _error_response (str_detail exc) "unsupported_media_type"
       status.HTTP_415_UNSUPPORTED_MEDIA_TYPE VNone None)
  else if isinstance exc Throttled then
    let extra : Dict :=
      match wait exc with
      | Some w => dict_set "retry_after" (VInt w) []
      | None => []
      end in
    ([],
     _error_response "Request throttled. Try again later." "throttled"
       status.HTTP_429_TOO_MANY_REQUESTS VNone (Some extra))
  else if isinstance exc APIException then
    ([mkLog WARNING "Unhandled APIException (%s): %s" false],
     _error_response (str_detail exc)
       (match default_code exc with Some c => c | None => "api_error" end)
       (status_code exc) VNone None)
  (* Django core exceptions *)
  else if isinstance exc Http404 then
    ([mkLog DEBUG "Http404: %s" false],
     _error_response "The requested resource was not found." "not_found"
       status.HTTP_404_NOT_FOUND VNone None)
  else if isinstance exc ObjectDoesNotExist then
    ([mkLog DEBUG "ObjectDoesNotExist: %s" false],
     _error_response "The requested object does not exist." "not_found"
       status.HTTP_404_NOT_FOUND VNone None)
  else if isinstance exc MultipleObjectsReturned then
    ([mkLog ERROR "MultipleObjectsReturned: %s" false],
     _error_response "Multiple objects found where only one was expected."
       "multiple_objects" status.HTTP_500_INTERNAL_SERVER_ERROR VNone None)
  else if isinstance exc PermissionDenied then
    ([mkLog WARNING "Django PermissionDenied: %s" false],
     _error_response "You do not have permission to perform this action."
       "permission_denied" status.HTTP_403_FORBIDDEN VNone None)
  else if isinstance exc DjangoValidationError then
    let errors : Value :=
      match message_dict exc with
      | Some d => message_dict_value d
      | None => VDict [("non_field_errors", VList (map VStr (messages exc)))]
      end in
    ([mkLog DEBUG "Django ValidationError: %s" false],
     _error_response "Invalid input." "validation_error"
       status.HTTP_400_BAD_REQUEST errors None)
  else if isinstance_any exc [SuspiciousOperation; DisallowedHost] then
    ([mkLog WARNING "Suspicious operation (%s): %s" false],
     _error_response "Bad request." "bad_request"
       status.HTTP_400_BAD_REQUEST VNone None)
  else if isinstance exc FieldDoesNotExist then
    ([mkLog ERROR "FieldDoesNotExist: %s" false],
     _error_response "A referenced field does not exist."
       "field_does_not_exist" status.HTTP_400_BAD_REQUEST VNone None)
  (* Database exceptions *)
  else if isinstance_any exc [ProtectedError; RestrictedError] then
    let dependents : list string :=
      match protected_objects exc with
      | Some objs => map obj_str objs
      | None => []
      end in
    ([mkLog WARNING "Delete blocked by related objects: %s" false],
     _error_response
       "Cannot delete this object because it is referenced by other records."
       "protected_object" status.HTTP_409_CONFLICT
       (VDict [("dependents", VList (map VStr (firstn 10 dependents)))]) None)
  else if isinstance exc IntegrityError then
    let msg :=
      if SAFE_DB_ERRORS self
      then "A database integrity constraint was violated."
      else exc_str exc in
    ([mkLog ERROR "IntegrityError: %s" false],
     _error_response msg "integrity_error" status.HTTP_409_CONFLICT VNone None)
  else if isinstance exc DataError then
    let msg :=
      if SAFE_DB_ERRORS self
      then "The provided data is invalid for the database schema."
      else exc_str exc in
    ([mkLog ERROR "DataError: %s" false],
     _error_response msg "data_error" status.HTTP_400_BAD_REQUEST VNone None)
  else if isinstance exc OperationalError then
    ([mkLog CRITICAL "DB OperationalError: %s" true],
     _error_response
       "A database operational error occurred. Please try again later."
       "db_operational_error" status.HTTP_503_SERVICE_UNAVAILABLE VNone None)
  else if isinstance_any exc [ProgrammingError; DatabaseError] then
    ([mkLog CRITICAL "DB error (%s): %s" true],
     _error_response "An unexpected database error occurred." "db_error"
       status.HTTP_500_INTERNAL_SERVER_ERROR VNone None)
  (* Catch-all *)
  else
    ([mkLog ERROR "Unhandled exception in %s [%s %s]: %s" true],
     _error_response "An unexpected internal error occurred."
       "internal_server_error" status.HTTP_500_INTERNAL_SERVER_ERROR
       VNone None).

(** The response alone. *)
Definition response_of (self : ViewSet) (exc : Exc) : Response :=
  snd (handle_exception self exc).

(** ** Failure kinds

    The kind of a failure is the first branch of [handle_exception] whose
    [isinstance] test it passes: the same tests, in the same order. *)
Inductive Kind : Type :=
| validation | parse | authentication | permission_denied | not_found
| method_not_allowed | not_acceptable | unsupported_media | throttled
| generic_api_error | http404 | object_missing | multiple_objects
| core_permission_denied | core_validation | suspicious_operation
| field_missing | referential_block | integrity_violation | data_invalid
| storage_unavailable | storage_error | unknown.

Definition kind_of (exc : Exc) : Kind :=
  if isinstance exc DRFValidationError then validation
  else if isinstance exc ParseError then parse
  else if isinstance_any exc [NotAuthenticated; AuthenticationFailed]
  then authentication
  else if isinstance_any exc [DRFPermissionDenied] then permission_denied
  else if isinstance exc NotFound then not_found
  else if isinstance exc MethodNotAllowed then method_not_allowed
  else if isinstance exc NotAcceptable then not_acceptable
  else if isinstance exc UnsupportedMediaType then unsupported_media
  else if isinstance exc Throttled then throttled
  else if isinstance exc APIException then generic_api_error
  else if isinstance exc Http404 then http404
  else if isinstance exc ObjectDoesNotExist then object_missing
  else if isinstance exc MultipleObjectsReturned then multiple_objects
  else if isinstance exc PermissionDenied then core_permission_denied
  else if isinstance exc DjangoValidationError then core_validation
  else if isinstance_any exc [SuspiciousOperation; DisallowedHost]
  then suspicious_operation
  else if isinstance exc FieldDoesNotExist then field_missing
  else if isinstance_any exc [ProtectedError; RestrictedError]
  then referential_block
  else if isinstance exc IntegrityError then integrity_violation
  else if isinstance exc DataError then data_invalid
  else if isinstance exc OperationalError then storage_unavailable
  else if isinstance_any exc [ProgrammingError; DatabaseError]
  then storage_error
  else unknown.

(** The classes some branch of [handle_exception] tests for. *)
Definition recognized : list ExcClass :=
  [DRFValidationError; ParseError; NotAuthenticated; AuthenticationFailed;
   DRFPermissionDenied; NotFound; MethodNotAllowed; NotAcceptable;
   UnsupportedMediaType; Throttled; APIException; Http404;
   ObjectDoesNotExist; MultipleObjectsReturned; PermissionDenied;
   DjangoValidationError; SuspiciousOperation; DisallowedHost;
   FieldDoesNotExist; ProtectedError; RestrictedError; IntegrityError;
   DataError; OperationalError; ProgrammingError; DatabaseError].

(** The kinds whose branch hands structured [errors] to [_error_response]. *)
Definition carries_errors (k : Kind) : bool :=
  match k with
  | validation | parse | core_validation | referential_block => true
  | _ => false
  end.


(** [BaseViewSet.success_response(data=None, message="Success.",
    status_code=200)]; [None] stands for an argument left out. *)
Definition success_response (self : ViewSet) (data : option Value)
    (message : option string) (status_code : option Z) : Response :=
  let data := match data with Some d => d | None => VNone end in
  let message := match message with Some m => m | None => "Success." end in
  let status_code :=
    match status_code with Some c => c | None => status.HTTP_200_OK end in
  mkResponse (VDict [("message", VStr message); ("data", data)]) status_code.

(** ** The operation pipelines *)

(** What a pipeline does at one point, and the record of it: [Enter s] when
    the call of step [s] begins, [Exit s] when it has returned without
    raising. *)
Inductive Step : Type :=
| Before | GetKwargs | Perform | After | ExternalFilter | Lookup | Serialize.

Inductive Event : Type :=
| Enter (s : Step)
| Exit (s : Step).

Scheme Equality for Step.
Scheme Equality for Event.

Definition count_event (ev : Event) (t : list Event) : nat :=
  count_occ Event_eq_dec t ev.

Section Pipeline.

(** [World] is everything a hook or a collaborator can read and change
    (database, caches, the request); the other types are the objects
    handed from step to step. *)
Variables World Serializer Instance KwargsT QuerySet : Type.

(** A method of the subclass or of a collaborator: it runs on the world
    and returns a value or raises; the changes it made before raising
    stay. *)
Definition Method (A : Type) : Type := World -> (Exc + A) * World.

(** A pipeline: a method that also extends the trace of its steps. *)
Definition M (A : Type) : Type :=
  World -> list Event -> (Exc + A) * World * list Event.

Definition ret {A : Type} (a : A) : M A := fun w t => (inr a, w, t).

Definition bind {A B : Type} (c : M A) (k : A -> M B) : M B :=
  fun w t =>
    match c w t with
    | (inl exc, w', t') => (inl exc, w', t')
    | (inr a, w', t') => k a w' t'
    end.

(** Calling step [s], implemented by [f]. *)
Definition call {A : Type} (s : Step) (f : Method A) : M A :=
  fun w t =>
    match f w with
    | (inl exc, w') => (inl exc, w', (t ++ [Enter s])%list)
    | (inr a, w') => (inr a, w', (t ++ [Enter s; Exit s])%list)
    end.

Notation "x <- c ;; k" := (bind c (fun x => k))
  (at level 61, c at next level, right associativity).
Notation "c ;; k" := (bind c (fun _ => k))
  (at level 61, right associativity).

(** The overridable hooks of [BaseViewSet] and the collaborators the
    pipelines call ([serializer.save], [instance.delete] and the methods
    of the parent class reached through [super()]). *)
Record Methods : Type := mkMethods {
  before_perform_create : Serializer -> Method unit;
  after_perform_create : Instance -> Serializer -> Method unit;
  get_create_kwargs : Serializer -> Method KwargsT;
  before_perform_update : Serializer -> Method unit;
  after_perform_update : Instance -> Serializer -> Method unit;
  get_update_kwargs : Serializer -> Method KwargsT;
  before_perform_destroy : Instance -> Method unit;
  after_perform_destroy : Instance -> Method unit;
  before_perform_list : QuerySet -> Method QuerySet;
  after_perform_list : QuerySet -> Method QuerySet;
  before_perform_retrieve : Instance -> Method unit;
  after_perform_retrieve : Instance -> Method unit;
  serializer_save : Serializer -> KwargsT -> Method Instance;
  instance_delete : Instance -> Method unit;
  super_filter_queryset : QuerySet -> Method QuerySet;
  super_get_queryset : Method QuerySet;
  super_get_object : Method Instance;
  get_serializer : Instance -> Method Serializer;
  serializer_data : Serializer -> Method Value
}.

Variable self : ViewSet.
Variable m : Methods.

(** [BaseViewSet.error_boundary]: [try: yield / except Exception as exc:
    raise exc]. *)
Definition error_boundary {A : Type} (body : Method A) : Method A :=
  fun w =>
    match body w with
    | (inl exc, w') => (inl exc, w')
    | (inr a, w') => (inr a, w')
    end.

(** [BaseViewSet.get_queryset] *)
Definition get_queryset : Method QuerySet :=
  fun w =>
    match super_get_queryset m w with
    | (inl exc, w') =>
        if isinstance exc ObjectDoesNotExist
        then (inl (new_NotFound (exc_str exc)), w')
        else (inl exc, w')
    | (inr qs, w') => (inr qs, w')
    end.

(** [BaseViewSet.get_object] *)
Definition get_object : Method Instance :=
  fun w =>
    match super_get_object m w with
    | (inl exc, w') =>
        if isinstance exc Http404
        then (inl (new_NotFound "Object not found."), w')
        else if isinstance exc ObjectDoesNotExist
        then (inl (new_NotFound (exc_str exc)), w')
        else (inl exc, w')
    | (inr obj, w') => (inr obj, w')
    end.

(** [BaseViewSet.perform_create] *)
Definition perform_create (serializer : Serializer) : M Instance :=
  call Before (before_perform_create m serializer) ;;
  kwargs <- call GetKwargs (get_create_kwargs m serializer) ;;
  instance <- call Perform (serializer_save m serializer kwargs) ;;
  call After (after_perform_create m instance serializer) ;;
  ret instance.

(** [BaseViewSet.perform_update] *)
Definition perform_update (serializer : Serializer) : M Instance :=
  call Before (before_perform_update m serializer) ;;
  kwargs <- call GetKwargs (get_update_kwargs m serializer) ;;
  instance <- call Perform (serializer_save m serializer kwargs) ;;
  call After (after_perform_update m instance serializer) ;;
  ret instance.

(** [BaseViewSet.perform_destroy] *)
Definition perform_destroy (instance : Instance) : M unit :=
  call Before (before_perform_destroy m instance) ;;
  call Perform (instance_delete m instance) ;;
  call After (after_perform_destroy m instance).

(** [BaseViewSet.filter_queryset] *)
Definition filter_queryset (queryset : QuerySet) : M QuerySet :=
  queryset <- call Before (before_perform_list m queryset) ;;
  queryset <- call ExternalFilter (super_filter_queryset m queryset) ;;
  queryset <- call After (after_perform_list m queryset) ;;
  ret queryset.

(** [BaseViewSet.retrieve]; a [Response] built without a status is a 200. *)
Definition retrieve : M Response :=
  instance <- call Lookup get_object ;;
  call Before (before_perform_retrieve m instance) ;;
  serializer <- call Serialize (get_serializer m instance) ;;
  call After (after_perform_retrieve m instance) ;;
  data <- call Serialize (serializer_data m serializer) ;;
  ret (mkResponse data status.HTTP_200_OK).

(** The boundary the module relies on, [APIView.dispatch] of the framework:
    the handler runs, and an exception it raises is handed to
    [handle_exception], whose response is the result. *)
Definition dispatch (handler : M Response) (w : World) : Response :=
  match handler w [] with
  | (inl exc, _, _) => response_of self exc
  | (inr r, _, _) => r
  end.

(** The hooks as [BaseViewSet] itself defines them (bodies that do
    nothing, [return {}], [return queryset]) around given collaborators. *)
Definition base_methods (empty_kwargs : KwargsT)
    (save : Serializer -> KwargsT -> Method Instance)
    (delete : Instance -> Method unit)
    (parent_filter_queryset : QuerySet -> Method QuerySet)
    (parent_get_queryset : Method QuerySet)
    (parent_get_object : Method Instance)
    (serializer_for : Instance -> Method Serializer)
    (data_of : Serializer -> Method Value) : Methods :=
  {| before_perform_create := fun _ w => (inr tt, w);
     after_perform_create := fun _ _ w => (inr tt, w);
     get_create_kwargs := fun _ w => (inr empty_kwargs, w);
     before_perform_update := fun _ w => (inr tt, w);
     after_perform_update := fun _ _ w => (inr tt, w);
     get_update_kwargs := fun _ w => (inr empty_kwargs, w);
     before_perform_destroy := fun _ w => (inr tt, w);
     after_perform_destroy := fun _ w => (inr tt, w);
     before_perform_list := fun queryset w => (inr queryset, w);
     after_perform_list := fun queryset w => (inr queryset, w);
     before_perform_retrieve := fun _ w => (inr tt, w);
     after_perform_retrieve := fun _ w => (inr tt, w);
     serializer_save := save;
     instance_delete := delete;
     super_filter_queryset := parent_filter_queryset;
     super_get_queryset := parent_get_queryset;
     super_get_object := parent_get_object;
     get_serializer := serializer_for;
     serializer_data := data_of |}.

End Pipeline.

Arguments before_perform_create {World Serializer Instance KwargsT QuerySet} m.
Arguments after_perform_create {World Serializer Instance KwargsT QuerySet} m.
Arguments get_create_kwargs {World Serializer Instance KwargsT QuerySet} m.
Arguments before_perform_update {World Serializer Instance KwargsT QuerySet} m.
Arguments after_perform_update {World Serializer Instance KwargsT QuerySet} m.
Arguments get_update_kwargs {World Serializer Instance KwargsT QuerySet} m.
Arguments before_perform_destroy {World Serializer Instance KwargsT QuerySet} m.
Arguments after_perform_destroy {World Serializer Instance KwargsT QuerySet} m.
Arguments before_perform_list {World Serializer Instance KwargsT QuerySet} m.
Arguments after_perform_list {World Serializer Instance KwargsT QuerySet} m.
Arguments before_perform_retrieve {World Serializer Instance KwargsT QuerySet} m.
Arguments after_perform_retrieve {World Serializer Instance KwargsT QuerySet} m.
Arguments serializer_save {World Serializer Instance KwargsT QuerySet} m.
Arguments instance_delete {World Serializer Instance KwargsT QuerySet} m.
Arguments super_filter_queryset {World Serializer Instance KwargsT QuerySet} m.
Arguments super_get_queryset {World Serializer Instance KwargsT QuerySet} m.
Arguments super_get_object {World Serializer Instance KwargsT QuerySet} m.
Arguments get_serializer {World Serializer Instance KwargsT QuerySet} m.
Arguments serializer_data {World Serializer Instance KwargsT QuerySet} m.
Arguments ret {World A} a.
Arguments bind {World A B} c k.
Arguments call {World A} s f.
Arguments error_boundary {World A} body.
Arguments get_queryset {World Serializer Instance KwargsT QuerySet} m.
Arguments get_object {World Serializer Instance KwargsT QuerySet} m.
Arguments perform_create {World Serializer Instance KwargsT QuerySet} m serializer.
Arguments perform_update {World Serializer Instance KwargsT QuerySet} m serializer.
Arguments perform_destroy {World Serializer Instance KwargsT QuerySet} m instance.
Arguments filter_queryset {World Serializer Instance KwargsT QuerySet} m queryset.
Arguments retrieve {World Serializer Instance KwargsT QuerySet} m.
Arguments dispatch {World} self handler w.
Arguments base_methods {World Serializer Instance KwargsT QuerySet}.

(** The outcome and the trace of one run of a pipeline, started on an empty
    trace. *)
Definition outcome {World A : Type} (c : M World A) (w : World) : Exc + A :=
  fst (fst (c w [])).

Definition trace {World A : Type} (c : M World A) (w : World) : list Event :=
  snd (c w []).

(** Event [a] is in the trace before every occurrence of event [b]. *)
Definition happens_before (a b : Event) (t : list Event) : Prop :=
  forall i, nth_error t i = Some b ->
  exists j, (j < i)%nat /\ nth_error t j = Some a.

(** What a before/perform/after pipeline owes, read off its outcome [r] and
    the trace [t] of one invocation: Before is entered exactly once and has
    returned before Perform is entered; After is entered exactly when Perform
    has returned; and an invocation in which Before or Perform did not return
    ends in the exception, After not entered. *)
Definition hooks_in_order {A : Type} (r : Exc + A) (t : list Event) : Prop :=
  count_event (Enter Before) t = 1%nat /\
  happens_before (Exit Before) (Enter Perform) t /\
  (In (Enter After) t <-> In (Exit Perform) t) /\
  (~ In (Exit Before) t \/ ~ In (Exit Perform) t ->
   (exists exc, r = inl exc) /\ ~ In (Enter After) t).

(** Some exceptions to run the definitions on. *)
Definition blank_exc (classes : list ExcClass) (text : string) : Exc :=
  {| mro := classes; exc_str := text; detail := VNone; detail_repr := "None";
     status_code := status.HTTP_500_INTERNAL_SERVER_ERROR;
     default_code := None; wait := None; message_dict := None;
     messages := []; protected_objects := None |}.

(** [ValueError("Post is already published.")]: no class the module knows. *)
Definition value_error : Exc := blank_exc [] "Post is already published.".

(** A [ProtectedError] raised for twelve dependent records. *)
Definition twelve : list Obj :=
  map mkObj ["c1"; "c2"; "c3"; "c4"; "c5"; "c6"; "c7"; "c8"; "c9"; "c10";
             "c11"; "c12"].

Definition protected_error_12 : Exc :=
  {| mro := [ProtectedError; IntegrityError; DatabaseError];
     exc_str := "Cannot delete some instances of model 'Post'";
     detail := VNone; detail_repr := "None";
     status_code := status.HTTP_500_INTERNAL_SERVER_ERROR;
     default_code := None; wait := None; message_dict := None;
     messages := []; protected_objects := Some twelve |}.

(** Storage-layer faults, with the text the database driver gave them. *)
Definition integrity_error_exc : Exc :=
  blank_exc [IntegrityError; DatabaseError]
    "UNIQUE constraint failed: blog_post.slug".

Definition data_error_exc : Exc :=
  blank_exc [DataError; DatabaseError]
    "value too long for type character varying(255)".

Definition operational_error_exc : Exc :=
  blank_exc [OperationalError; DatabaseError] "could not connect to server".

Definition programming_error_exc : Exc :=
  blank_exc [ProgrammingError; DatabaseError]
    "relation blog_post does not exist".



(** [Throttled()] without and with a wait. *)
Definition throttled_exc (w : option Z) : Exc :=
  {| mro := [Throttled; APIException];
     exc_str := "Request was throttled.";
     detail := VStr "Request was throttled.";
     detail_repr := "Request was throttled.";
     status_code := status.HTTP_429_TOO_MANY_REQUESTS;
     default_code := Some "throttled"; wait := w; message_dict := None;
     messages := []; protected_objects := None |}.

(** The low-level signal of a missing row, as [get_object_or_404] raises it. *)
Definition http404_exc : Exc :=
  blank_exc [Http404] "No Post matches the given query.".

(** A small store of posts: the world is the list of the ids in the table,
    an instance is an id, a serializer carries the id it is bound to. *)
Definition posts_lookup (pk : Z) : Method (list Z) Z :=
  fun w =>
    if existsb (Z.eqb pk) w then (inr pk, w) else (inl http404_exc, w).

Definition posts_view (pk : Z) : Methods (list Z) Z Z unit (list Z) :=
  base_methods tt
    (fun serializer _ w => (inr serializer, serializer :: w))
    (fun instance w => (inr tt, filter (fun x => negb (Z.eqb x instance)) w))
    (fun queryset w => (inr queryset, w))
    (fun w => (inr w, w))
    (posts_lookup pk)
    (fun instance w => (inr instance, w))
    (fun serializer w => (inr (VDict [("id", VInt serializer)]), w)).

(** [rest_framework.exceptions.PermissionDenied(d)], as a hook raises it. *)
Definition new_PermissionDenied (d : string) : Exc :=
  {| mro := [DRFPermissionDenied; APIException];
     exc_str := d; detail := VStr d; detail_repr := d;
     status_code := status.HTTP_403_FORBIDDEN;
     default_code := Some "permission_denied"; wait := None;
     message_dict := None; messages := []; protected_objects := None |}.

(** The store of posts with one business rule: post 42 is published and
    before_perform_destroy refuses to delete it. *)
Definition guarded_posts_view : Methods (list Z) Z Z unit (list Z) :=
  let base := posts_view 42 in
  {| before_perform_create := before_perform_create base;
     after_perform_create := after_perform_create base;
     get_create_kwargs := get_create_kwargs base;
     before_perform_update := before_perform_update base;
     after_perform_update := after_perform_update base;
     get_update_kwargs := get_update_kwargs base;
     before_perform_destroy := fun instance w =>
       if Z.eqb instance 42
       then (inl (new_PermissionDenied
                    "Published posts cannot be deleted. Unpublish first."), w)
       else (inr tt, w);
     after_perform_destroy := after_perform_destroy base;
     before_perform_list := before_perform_list base;
     after_perform_list := after_perform_list base;
     before_perform_retrieve := before_perform_retrieve base;
     after_perform_retrieve := after_perform_retrieve base;
     serializer_save := serializer_save base;
     instance_delete := instance_delete base;
     super_filter_queryset := super_filter_queryset base;
     super_get_queryset := super_get_queryset base;
     super_get_object := super_get_object base;
     get_serializer := get_serializer base;
     serializer_data := serializer_data base |}.

(** ** Request logging *)

(** The world one run of a pipeline leaves. *)
Definition world_after {World A : Type} (c : M World A) (w : World) : World :=
  snd (fst (c w [])).

(** The request, by what [initial] and [finalize_response] read from it.
    [request.user] and [request.data] are properties of the framework's
    request: reading them authenticates the request and parses its body, so
    either can raise and can change the world. *)
Record Request (World : Type) : Type := mkRequest {
  req_method : string;
  req_path : string;
  req_user : Method World Value;
  req_data : Method World Value
}.

Arguments mkRequest {World}.
Arguments req_method {World}.
Arguments req_path {World}.
Arguments req_user {World}.
Arguments req_data {World}.

(** [BaseViewSet.initial(self, request)]: the outcome, the world and the log
    entries written.  The arguments of [logger.debug] are evaluated, left to
    right, before the call. *)
Definition initial {World : Type} (self : ViewSet)
    (super_initial : Request World -> Method World unit)
    (request : Request World)
    : World -> (Exc + unit) * World * list LogRecord :=
  fun w =>
    if LOG_REQUESTS self then
      match req_user request w with
      | (inl exc, w1) => (inl exc, w1, [])
      | (inr _, w1) =>
          match req_data request w1 with
          | (inl exc, w2) => (inl exc, w2, [])
          | (inr _, w2) =>
              match super_initial request w2 with
              | (r, w3) =>
                  (r, w3,
                   [mkLog DEBUG "→ %s %s | user=%s | data=%s" false])
              end
          end
      end
    else
      match super_initial request w with
      | (r, w1) => (r, w1, [])
      end.

(** [BaseViewSet.finalize_response(self, request, response)]. *)
Definition finalize_response {World : Type} (self : ViewSet)
    (super_finalize_response : Request World -> Response -> Method World Response)
    (request : Request World) (response : Response)
    : World -> (Exc + Response) * World * list LogRecord :=
  fun w =>
    match super_finalize_response request response w with
    | (inl exc, w1) => (inl exc, w1, [])
    | (inr response', w1) =>
        (inr response', w1,
         if LOG_REQUESTS self
         then [mkLog DEBUG "← %s %s | status=%s" false]
         else [])
    end.

(** ** The example view sets *)

(** [Post] and [Comment] of the blog example, by the fields the hooks read;
    users are compared by primary key. *)
Inductive PostStatus : Type := DRAFT | PUBLISHED.

Record Post : Type := mkPost {
  post_pk : Z;
  post_author : Z;
  post_title : string;
  post_status : PostStatus
}.

Record Comment : Type := mkComment {
  comment_pk : Z;
  comment_author : Z;
  comment_post_id : Z
}.

Definition PostStatus_eqb (a b : PostStatus) : bool :=
  match a, b with
  | DRAFT, DRAFT | PUBLISHED, PUBLISHED => true
  | _, _ => false
  end.

(** A subclass overriding one method: the record with that field replaced. *)
Definition set_before_perform_destroy
    {World Serializer Instance KwargsT QuerySet : Type}
    (f : Instance -> Method World unit)
    (m : Methods World Serializer Instance KwargsT QuerySet)
    : Methods World Serializer Instance KwargsT QuerySet :=
  {| before_perform_create := before_perform_create m;
     after_perform_create := after_perform_create m;
     get_create_kwargs := get_create_kwargs m;
     before_perform_update := before_perform_update m;
     after_perform_update := after_perform_update m;
     get_update_kwargs := get_update_kwargs m;
     before_perform_destroy := f;
     after_perform_destroy := after_perform_destroy m;
     before_perform_list := before_perform_list m;
     after_perform_list := after_perform_list m;
     before_perform_retrieve := before_perform_retrieve m;
     after_perform_retrieve := after_perform_retrieve m;
     serializer_save := serializer_save m;
     instance_delete := instance_delete m;
     super_filter_queryset := super_filter_queryset m;
     super_get_queryset := super_get_queryset m;
     super_get_object := super_get_object m;
     get_serializer := get_serializer m;
     serializer_data := serializer_data m |}.

Definition set_after_perform_destroy
    {World Serializer Instance KwargsT QuerySet : Type}
    (f : Instance -> Method World unit)
    (m : Methods World Serializer Instance KwargsT QuerySet)
    : Methods World Serializer Instance KwargsT QuerySet :=
  {| before_perform_create := before_perform_create m;
     after_perform_create := after_perform_create m;
     get_create_kwargs := get_create_kwargs m;
     before_perform_update := before_perform_update m;
     after_perform_update := after_perform_update m;
     get_update_kwargs := get_update_kwargs m;
     before_perform_destroy := before_perform_destroy m;
     after_perform_destroy := f;
     before_perform_list := before_perform_list m;
     after_perform_list := after_perform_list m;
     before_perform_retrieve := before_perform_retrieve m;
     after_perform_retrieve := after_perform_retrieve m;
     serializer_save := serializer_save m;
     instance_delete := instance_delete m;
     super_filter_queryset := super_filter_queryset m;
     super_get_queryset := super_get_queryset m;
     super_get_object := super_get_object m;
     get_serializer := get_serializer m;
     serializer_data := serializer_data m |}.

Definition set_get_create_kwargs
    {World Serializer Instance KwargsT QuerySet : Type}
    (f : Serializer -> Method World KwargsT)
    (m : Methods World Serializer Instance KwargsT QuerySet)
    : Methods World Serializer Instance KwargsT QuerySet :=
  {| before_perform_create := before_perform_create m;
     after_perform_create := after_perform_create m;
     get_create_kwargs := f;
     before_perform_update := before_perform_update m;
     after_perform_update := after_perform_update m;
     get_update_kwargs := get_update_kwargs m;
     before_perform_destroy := before_perform_destroy m;
     after_perform_destroy := after_perform_destroy m;
     before_perform_list := before_perform_list m;
     after_perform_list := after_perform_list m;
     before_perform_retrieve := before_perform_retrieve m;
     after_perform_retrieve := after_perform_retrieve m;
     serializer_save := serializer_save m;
     instance_delete := instance_delete m;
     super_filter_queryset := super_filter_queryset m;
     super_get_queryset := super_get_queryset m;
     super_get_object := super_get_object m;
     get_serializer := get_serializer m;
     serializer_data := serializer_data m |}.

(** [PostViewSet.before_perform_destroy] *)
Definition post_before_perform_destroy {World : Type} (instance : Post)
    : Method World unit :=
  fun w =>
    if PostStatus_eqb (post_status instance) PUBLISHED
    then (inl (new_PermissionDenied
                 "Published posts cannot be deleted. Unpublish first."), w)
    else (inr tt, w).

(** [PostViewSet.after_perform_destroy]; [log_info] is what one call of
    [logger.info] with the given format does to the world. *)
Definition post_after_perform_destroy {World : Type}
    (log_info : string -> World -> World) (instance : Post)
    : Method World unit :=
  fun w => (inr tt, log_info "Post deleted: id=%s title=%r" w).

(** [CommentViewSet.before_perform_destroy]; [request_user] is
    [self.request.user]. *)
Definition comment_before_perform_destroy {World : Type} (request_user : Z)
    (instance : Comment) : Method World unit :=
  fun w =>
    if negb (Z.eqb (comment_author instance) request_user)
    then (inl (new_PermissionDenied "You can only delete your own comments."),
          w)
    else (inr tt, w).

(** [CommentViewSet.after_perform_destroy] *)
Definition comment_after_perform_destroy {World : Type}
    (log_info : string -> World -> World) (instance : Comment)
    : Method World unit :=
  fun w =>
    (inr tt, log_info "Comment deleted: id=%s post_id=%s by user=%s" w).

(** The keyword arguments of a comment's [serializer.save]: [None] for the
    empty dict of the base hooks, or the author and post that
    [CommentViewSet.get_create_kwargs] returns. *)
Record CommentKwargs : Type := mkCommentKwargs {
  kw_author : Z;
  kw_post : Post
}.

(** [CommentViewSet.get_create_kwargs]; [post_pk] is
    [self.kwargs.get("post_pk")] and [posts_get] is [Post.objects.get(pk=...)].
    The [except Post.DoesNotExist: raise] re-raises what it caught. *)
Definition comment_get_create_kwargs {World Serializer : Type}
    (request_user : Z) (post_pk : option Z)
    (posts_get : option Z -> Method World Post) (serializer : Serializer)
    : Method World (option CommentKwargs) :=
  fun w =>
    match posts_get post_pk w with
    | (inl exc, w1) => (inl exc, w1)
    | (inr post, w1) =>
        if negb (PostStatus_eqb (post_status post) PUBLISHED)
        then (inl (new_PermissionDenied
                     "You can only comment on published posts."), w1)
        else (inr (Some (mkCommentKwargs request_user post)), w1)
    end.

(** The destroy hooks of [PostViewSet] and the hooks of [CommentViewSet] over
    the rest of a view set. *)
Definition post_viewset {World Serializer KwargsT QuerySet : Type}
    (log_info : string -> World -> World)
    (m : Methods World Serializer Post KwargsT QuerySet)
    : Methods World Serializer Post KwargsT QuerySet :=
  set_after_perform_destroy (post_after_perform_destroy log_info)
    (set_before_perform_destroy post_before_perform_destroy m).

Definition comment_viewset {World Serializer QuerySet : Type}
    (log_info : string -> World -> World) (request_user : Z)
    (post_pk : option Z) (posts_get : option Z -> Method World Post)
    (m : Methods World Serializer Comment (option CommentKwargs) QuerySet)
    : Methods World Serializer Comment (option CommentKwargs) QuerySet :=
  set_get_create_kwargs
    (comment_get_create_kwargs request_user post_pk posts_get)
    (set_after_perform_destroy (comment_after_perform_destroy log_info)
       (set_before_perform_destroy
          (comment_before_perform_destroy request_user) m)).

(** A run of the blog example: the world is the list of the formats
    [logger.info] was called with, latest first.  User 5 works on post 3. *)
Definition blog_log_info (format : string) (w : list string) : list string :=
  format :: w.

Definition does_not_exist_exc : Exc :=
  blank_exc [ObjectDoesNotExist] "Post matching query does not exist.".

Definition blog_posts_get (pk : option Z) : Method (list string) Post :=
  fun w =>
    match pk with
    | Some 3 => (inr (mkPost 3 9 "My First Post" PUBLISHED), w)
    | Some 4 => (inr (mkPost 4 9 "Notes" DRAFT), w)
    | _ => (inl does_not_exist_exc, w)
    end.

Definition blog_comments_base
    : Methods (list string) unit Comment (option CommentKwargs)
        (list Comment) :=
  base_methods None
    (fun _ kwargs w =>
       match kwargs with
       | Some kw => (inr (mkComment 1 (kw_author kw) (post_pk (kw_post kw))), w)
       | None => (inl integrity_error_exc, w)
       end)
    (fun _ w => (inr tt, w))
    (fun queryset w => (inr queryset, w))
    (fun w => (inl does_not_exist_exc, w))
    (fun w => (inl http404_exc, w))
    (fun _ w => (inr tt, w))
    (fun _ w => (inr VNone, w)).

Definition blog_comments_view (post_pk : option Z)
    : Methods (list string) unit Comment (option CommentKwargs)
        (list Comment) :=
  comment_viewset blog_log_info 5 post_pk blog_posts_get blog_comments_base.

Definition blog_posts_base
    : Methods (list string) unit Post unit (list Post) :=
  base_methods tt
    (fun _ _ w => (inr (mkPost 3 9 "My First Post" DRAFT), w))
    (fun _ w => (inr tt, w))
    (fun queryset w => (inr queryset, w))
    (fun w => (inr [], w))
    (fun w => (inl http404_exc, w))
    (fun _ w => (inr tt, w))
    (fun _ w => (inr VNone, w)).

Definition blog_posts_view
    : Methods (list string) unit Post unit (list Post) :=
  post_viewset blog_log_info blog_posts_base.

(** A request whose body cannot be parsed. *)
Definition parse_error_exc : Exc :=
  {| mro := [ParseError; APIException];
     exc_str := "JSON parse error"; detail := VStr "JSON parse error";
     detail_repr := "JSON parse error";
     status_code := status.HTTP_400_BAD_REQUEST;
     default_code := Some "parse_error"; wait := None; message_dict := None;
     messages := []; protected_objects := None |}.

Definition bad_body_request : Request (list string) :=
  mkRequest "POST" "/api/posts/"
    (fun w => (inr (VInt 5), w))
    (fun w => (inl parse_error_exc, w)).

(** The [ValidationError] PostViewSet.before_perform_create raises for a
    duplicate title. *)
Definition duplicate_title_exc : Exc :=
  {| mro := [DRFValidationError; APIException];
     exc_str := "{'title': ErrorDetail(string='You already have a post with this title.', code='invalid')}";
     detail :=
       VDict [("title", VStr "You already have a post with this title.")];
     detail_repr := "{'title': ErrorDetail(string='You already have a post with this title.', code='invalid')}";
     status_code := status.HTTP_400_BAD_REQUEST;
     default_code := Some "invalid"; wait := None; message_dict := None;
     messages := []; protected_objects := None |}.

(** ** Branches by kind *)

(** The classes the branch of a kind tests for, and an exception moved to
    another class list. *)
Definition branch_classes (k : Kind) : list ExcClass :=
  match k with
  | validation => [DRFValidationError]
  | parse => [ParseError]
  | authentication => [NotAuthenticated; AuthenticationFailed]
  | permission_denied => [DRFPermissionDenied]
  | not_found => [NotFound]
  | method_not_allowed => [MethodNotAllowed]
  | not_acceptable => [NotAcceptable]
  | unsupported_media => [UnsupportedMediaType]
  | throttled => [Throttled]
  | generic_api_error => [APIException]
  | http404 => [Http404]
  | object_missing => [ObjectDoesNotExist]
  | multiple_objects => [MultipleObjectsReturned]
  | core_permission_denied => [PermissionDenied]
  | core_validation => [DjangoValidationError]
  | suspicious_operation => [SuspiciousOperation; DisallowedHost]
  | field_missing => [FieldDoesNotExist]
  | referential_block => [ProtectedError; RestrictedError]
  | integrity_violation => [IntegrityError]
  | data_invalid => [DataError]
  | storage_unavailable => [OperationalError]
  | storage_error => [ProgrammingError; DatabaseError]
  | unknown => []
  end.

Definition with_mro (classes : list ExcClass) (e : Exc) : Exc :=
  {| mro := classes; exc_str := exc_str e; detail := detail e;
     detail_repr := detail_repr e; status_code := status_code e;
     default_code := default_code e; wait := wait e;
     message_dict := message_dict e; messages := messages e;
     protected_objects := protected_objects e |}.

(** ** The handler on exception objects as Python has them

    [Exc] takes every attribute the handler reads as present and every
    [str()] as returning.  A Python object promises neither: an instance
    attribute set in [__init__] ([detail], [wait], what [messages] reads) is
    absent when a subclass does not call the parent's [__init__], and
    [__str__] is user code that can raise.  [PyExc] keeps that, and
    [handle_exception_py] is [handle_exception] with each read and each
    [str()] where the source has it, returning the exception that escapes
    when one does. *)




















(** * Properties *)

(** ** Dicts *)

Lemma dict_keys_set_incl (k : string) (v : Value) (d : Dict) (x : string) :
  In x (dict_keys d) -> In x (dict_keys (dict_set k v d)).
Proof.
  unfold dict_keys.
  induction d as [|[k' v'] rest IH]; simpl; [tauto|].
  destruct (String.eqb k k'); simpl; tauto.
Qed.

Lemma dict_keys_set_inv (k : string) (v : Value) (d : Dict) (x : string) :
  In x (dict_keys (dict_set k v d)) -> x = k \/ In x (dict_keys d).
Proof.
  unfold dict_keys.
  induction d as [|[k' v'] rest IH]; simpl.
  - intros [H|[]]; auto.
  - destruct (String.eqb k k'); simpl; intuition.
Qed.

Lemma dict_keys_update_incl (extra d : Dict) (x : string) :
  In x (dict_keys d) -> In x (dict_keys (dict_update d extra)).
Proof.
  unfold dict_update. revert d.
  induction extra as [|[k v] rest IH]; simpl; intros d H; auto.
  apply IH. now apply dict_keys_set_incl.
Qed.

Lemma dict_keys_update_inv (extra d : Dict) (x : string) :
  In x (dict_keys (dict_update d extra)) ->
  In x (dict_keys d) \/ In x (dict_keys extra).
Proof.
  unfold dict_update. revert d.
  induction extra as [|[k v] rest IH]; simpl; intros d H; auto.
  apply IH in H. destruct H as [H|H]; auto.
  apply dict_keys_set_inv in H. destruct H as [->|H]; auto.
Qed.

(** ** The classifier *)

(** For a goal [kind_of exc = k -> ...]: follow the chain in its own order
    down to the branch of kind [k], the only one left. *)
Ltac by_kind :=
  unfold response_of, handle_exception, kind_of;
  repeat lazymatch goal with
  | |- (if ?c then _ else _) = _ -> _ =>
      destruct c eqn:?; cbv iota; try (intros; discriminate)
  end.

(** C2: a failure that is an instance of no class the handler tests for gets
    the 500 / internal_server_error response with the one fixed message and no
    details, whatever the exception and whatever SAFE_DB_ERRORS is. *)
Theorem unrecognized_failure_is_generic_500 (self : ViewSet) (exc : Exc) :
  forallb (fun c => negb (isinstance exc c)) recognized = true ->
  response_of self exc =
    mkResponse
      (VDict [("error",
               VDict [("code", VStr "internal_server_error");
                      ("message", VStr "An unexpected internal error occurred.");
                      ("details", VNone)])])
      500.
Proof.
  intros H.
  unfold response_of, handle_exception, isinstance_any. cbn [existsb].
  unfold recognized in H. cbn [forallb] in H.
  repeat match type of H with
  | context [isinstance exc ?c] =>
      destruct (isinstance exc c) eqn:?; cbn [negb andb] in H;
      try discriminate H
  end.
  reflexivity.
Qed.

Lemma unrecognized_failure_is_generic_500_witness :
  response_of (mkViewSet false true) value_error
    = response_of (mkViewSet false false) value_error
  /\ resp_status (response_of (mkViewSet false false) value_error) = 500.
Proof.
  rewrite (unrecognized_failure_is_generic_500 (mkViewSet false true) value_error)
    by reflexivity.
  rewrite (unrecognized_failure_is_generic_500 (mkViewSet false false) value_error)
    by reflexivity.
  split; reflexivity.
Defined.

(** C6: integrity_violation is 409 / integrity_error and data_invalid is
    400 / data_error, each with its fixed generic message when SAFE_DB_ERRORS
    is set and with str(exc) when it is not; storage_unavailable is
    503 / db_operational_error and storage_error is 500 / db_error, each with
    a fixed generic message for both values of the flag. *)
Theorem storage_fault_messages (self : ViewSet) (exc : Exc) :
  (kind_of exc = integrity_violation ->
   response_of self exc =
     _error_response
       (if SAFE_DB_ERRORS self
        then "A database integrity constraint was violated."
        else exc_str exc)
       "integrity_error" 409 VNone None) /\
  (kind_of exc = data_invalid ->
   response_of self exc =
     _error_response
       (if SAFE_DB_ERRORS self
        then "The provided data is invalid for the database schema."
        else exc_str exc)
       "data_error" 400 VNone None) /\
  (kind_of exc = storage_unavailable ->
   response_of self exc =
     _error_response
       "A database operational error occurred. Please try again later."
       "db_operational_error" 503 VNone None) /\
  (kind_of exc = storage_error ->
   response_of self exc =
     _error_response "An unexpected database error occurred." "db_error"
       500 VNone None).
Proof.
  repeat split; by_kind; reflexivity.
Qed.

Lemma storage_fault_messages_witness :
  error_field "message"
    (response_of (mkViewSet false true) integrity_error_exc)
    = Some (VStr "A database integrity constraint was violated.")
  /\ error_field "message"
       (response_of (mkViewSet false false) integrity_error_exc)
     = Some (VStr "UNIQUE constraint failed: blog_post.slug")
  /\ error_field "message"
       (response_of (mkViewSet false false) data_error_exc)
     = Some (VStr "value too long for type character varying(255)")
  /\ resp_status (response_of (mkViewSet false false) operational_error_exc)
     = 503
  /\ error_field "message"
       (response_of (mkViewSet false false) programming_error_exc)
     = Some (VStr "An unexpected database error occurred.").
Proof.
  destruct (storage_fault_messages (mkViewSet false true) integrity_error_exc)
    as [H1 _].
  destruct (storage_fault_messages (mkViewSet false false) integrity_error_exc)
    as [H2 _].
  destruct (storage_fault_messages (mkViewSet false false) data_error_exc)
    as (_ & H3 & _).
  destruct (storage_fault_messages (mkViewSet false false)
              operational_error_exc) as (_ & _ & H4 & _).
  destruct (storage_fault_messages (mkViewSet false false)
              programming_error_exc) as (_ & _ & _ & H5).
  rewrite (H1 eq_refl), (H2 eq_refl), (H3 eq_refl), (H4 eq_refl),
    (H5 eq_refl).
  repeat split; reflexivity.
Defined.



(** C5, as the code has it: a referential_block failure is 409 /
    protected_object and the error object gets no dependents key of its own;
    when the failure carries protected_objects, the str() of the first ten of
    them, in their order, is the list under the key dependents inside
    details, so that list never has more than ten entries. *)
Theorem referential_block_dependents (self : ViewSet) (exc : Exc) :
  kind_of exc = referential_block ->
  resp_status (response_of self exc) = 409
  /\ error_field "code" (response_of self exc)
     = Some (VStr "protected_object")
  /\ error_field "dependents" (response_of self exc) = None
  /\ (forall objs,
        protected_objects exc = Some objs ->
        error_field "details" (response_of self exc)
          = Some (VDict [("dependents",
                          VList (map VStr (firstn 10 (map obj_str objs))))])
        /\ (List.length (firstn 10 (map obj_str objs)) <= 10)%nat
        /\ ((List.length objs <= 10)%nat ->
            firstn 10 (map obj_str objs) = map obj_str objs)).
Proof.
  by_kind. intros _.
  split; [reflexivity|]. split; [reflexivity|]. split; [reflexivity|].
  intros objs ->. split; [reflexivity|]. split.
  - apply firstn_le_length.
  - intros Hlen. apply firstn_all2. now rewrite length_map.
Qed.

Lemma referential_block_dependents_witness :
  resp_status (response_of (mkViewSet false true) protected_error_12) = 409
  /\ error_field "details" (response_of (mkViewSet false true) protected_error_12)
     = Some (VDict [("dependents",
                     VList (map VStr ["c1"; "c2"; "c3"; "c4"; "c5"; "c6"; "c7";
                                      "c8"; "c9"; "c10"]))]).
Proof.
  destruct (referential_block_dependents (mkViewSet false true)
              protected_error_12 eq_refl) as (H1 & _ & _ & H4).
  split; [exact H1|].
  exact (proj1 (H4 twelve eq_refl)).
Defined.

(** C5, as stated, fails: for a ProtectedError with twelve dependents the
    error object has no dependents key beside code, message and details, so
    it is not true that every referential_block response carries a
    dependents list as extra metadata. *)
Lemma referential_block_not_under_extra :
  kind_of protected_error_12 = referential_block
  /\ error_object (response_of (mkViewSet false true) protected_error_12)
     = Some [("code", VStr "protected_object");
             ("message",
              VStr "Cannot delete this object because it is referenced by other records.");
             ("details",
              VDict [("dependents",
                      VList (map VStr ["c1"; "c2"; "c3"; "c4"; "c5"; "c6";
                                       "c7"; "c8"; "c9"; "c10"]))])]
  /\ ~ (forall self exc,
         kind_of exc = referential_block ->
         exists l,
           error_field "dependents" (response_of self exc) = Some (VList l)
           /\ (List.length l <= 10)%nat).
Proof.
  split; [reflexivity|]. split; [reflexivity|].
  intros H.
  destruct (H (mkViewSet false true) protected_error_12 eq_refl) as [l [Hl _]].
  discriminate Hl.
Qed.

(** ** The pipelines *)

Ltac run_pipeline :=
  unfold outcome, trace, perform_create, perform_update, perform_destroy,
    filter_queryset, retrieve, bind, call, ret.

Ltac split_method f :=
  let r := fresh "r" in let w := fresh "w" in let exc := fresh "exc" in
  destruct f as [[exc|r] w].

Ltac check_order :=
  unfold hooks_in_order, happens_before, count_event; cbn;
  repeat split;
  try solve [ intuition discriminate
            | intuition congruence
            | eexists; reflexivity ];
  try (let i := fresh "i" in let Hi := fresh "Hi" in
       intros i Hi;
       repeat (destruct i as [|i]; cbn in Hi; try discriminate Hi;
               try (exists 1%nat; split; [lia | reflexivity]))).

(** C3: every run of the create, update and destroy pipelines calls the
    Before hook of [m] first, once, in the world it was started in; then, only
    when Before returned, get_*_kwargs (create and update) and the Perform
    step, [serializer.save] or [instance.delete], each in the world the step
    before left; then, exactly when Perform returned, the After hook, on the
    instance Perform returned.  The first step to raise ends the run with its
    exception and its world, the later steps not called.  On the trace:
    Before is entered exactly once and has returned before Perform is
    entered, After is entered exactly when Perform has returned, and a run in
    which Before or Perform raised ends in an exception with After not
    entered. *)
Theorem perform_hooks_in_order
    {World Serializer Instance KwargsT QuerySet : Type}
    (m : Methods World Serializer Instance KwargsT QuerySet)
    (serializer : Serializer) (instance : Instance) (w : World) :
  (perform_create m serializer w [] =
     match before_perform_create m serializer w with
     | (inl exc, w1) => (inl exc, w1, [Enter Before])
     | (inr _, w1) =>
         match get_create_kwargs m serializer w1 with
         | (inl exc, w2) =>
             (inl exc, w2, [Enter Before; Exit Before; Enter GetKwargs])
         | (inr kwargs, w2) =>
             match serializer_save m serializer kwargs w2 with
             | (inl exc, w3) =>
                 (inl exc, w3,
                  [Enter Before; Exit Before; Enter GetKwargs; Exit GetKwargs;
                   Enter Perform])
             | (inr saved, w3) =>
                 match after_perform_create m saved serializer w3 with
                 | (inl exc, w4) =>
                     (inl exc, w4,
                      [Enter Before; Exit Before; Enter GetKwargs;
                       Exit GetKwargs; Enter Perform; Exit Perform;
                       Enter After])
                 | (inr _, w4) =>
                     (inr saved, w4,
                      [Enter Before; Exit Before; Enter GetKwargs;
                       Exit GetKwargs; Enter Perform; Exit Perform;
                       Enter After; Exit After])
                 end
             end
         end
     end)
  /\ (perform_update m serializer w [] =
       match before_perform_update m serializer w with
       | (inl exc, w1) => (inl exc, w1, [Enter Before])
       | (inr _, w1) =>
           match get_update_kwargs m serializer w1 with
           | (inl exc, w2) =>
               (inl exc, w2, [Enter Before; Exit Before; Enter GetKwargs])
           | (inr kwargs, w2) =>
               match serializer_save m serializer kwargs w2 with
               | (inl exc, w3) =>
                   (inl exc, w3,
                    [Enter Before; Exit Before; Enter GetKwargs;
                     Exit GetKwargs; Enter Perform])
               | (inr saved, w3) =>
                   match after_perform_update m saved serializer w3 with
                   | (inl exc, w4) =>
                       (inl exc, w4,
                        [Enter Before; Exit Before; Enter GetKwargs;
                         Exit GetKwargs; Enter Perform; Exit Perform;
                         Enter After])
                   | (inr _, w4) =>
                       (inr saved, w4,
                        [Enter Before; Exit Before; Enter GetKwargs;
                         Exit GetKwargs; Enter Perform; Exit Perform;
                         Enter After; Exit After])
                   end
               end
           end
       end)
  /\ (perform_destroy m instance w [] =
       match before_perform_destroy m instance w with
       | (inl exc, w1) => (inl exc, w1, [Enter Before])
       | (inr _, w1) =>
           match instance_delete m instance w1 with
           | (inl exc, w2) =>
               (inl exc, w2, [Enter Before; Exit Before; Enter Perform])
           | (inr _, w2) =>
               match after_perform_destroy m instance w2 with
               | (inl exc, w3) =>
                   (inl exc, w3,
                    [Enter Before; Exit Before; Enter Perform; Exit Perform;
                     Enter After])
               | (inr _, w3) =>
                   (inr tt, w3,
                    [Enter Before; Exit Before; Enter Perform; Exit Perform;
                     Enter After; Exit After])
               end
           end
       end)
  /\ hooks_in_order (outcome (perform_create m serializer) w)
                    (trace (perform_create m serializer) w)
  /\ hooks_in_order (outcome (perform_update m serializer) w)
                    (trace (perform_update m serializer) w)
  /\ hooks_in_order (outcome (perform_destroy m instance) w)
                    (trace (perform_destroy m instance) w).
Proof.
  split; [|split; [|split; [|split; [|split]]]].
  - run_pipeline.
    split_method (before_perform_create m serializer w); [reflexivity|].
    split_method (get_create_kwargs m serializer w0); [reflexivity|].
    split_method (serializer_save m serializer r0 w1); [reflexivity|].
    split_method (after_perform_create m r1 serializer w2);
      [reflexivity|]. destruct r2. reflexivity.
  - run_pipeline.
    split_method (before_perform_update m serializer w); [reflexivity|].
    split_method (get_update_kwargs m serializer w0); [reflexivity|].
    split_method (serializer_save m serializer r0 w1); [reflexivity|].
    split_method (after_perform_update m r1 serializer w2);
      [reflexivity|]. destruct r2. reflexivity.
  - run_pipeline.
    split_method (before_perform_destroy m instance w); [reflexivity|].
    split_method (instance_delete m instance w0); [reflexivity|].
    split_method (after_perform_destroy m instance w1);
      [reflexivity|]. destruct r1. reflexivity.
  - run_pipeline.
    split_method (before_perform_create m serializer w); [check_order|].
    split_method (get_create_kwargs m serializer w0); [check_order|].
    split_method (serializer_save m serializer r0 w1); [check_order|].
    split_method (after_perform_create m r1 serializer w2); check_order.
  - run_pipeline.
    split_method (before_perform_update m serializer w); [check_order|].
    split_method (get_update_kwargs m serializer w0); [check_order|].
    split_method (serializer_save m serializer r0 w1); [check_order|].
    split_method (after_perform_update m r1 serializer w2); check_order.
  - run_pipeline.
    split_method (before_perform_destroy m instance w); [check_order|].
    split_method (instance_delete m instance w0); [check_order|].
    split_method (after_perform_destroy m instance w1); check_order.
Qed.

(** The destroy pipeline on the guarded store: deleting post 7 runs the three
    steps and removes the row; deleting the published post 42 stops in Before
    with the table untouched, and the handler answers 403 with the hook's
    message and no details. *)
Example perform_destroy_runs :
  perform_destroy guarded_posts_view 7 [7; 42] [] =
    (inr tt, [42],
     [Enter Before; Exit Before; Enter Perform; Exit Perform;
      Enter After; Exit After]).
Proof. reflexivity. Qed.

Example perform_destroy_vetoed :
  perform_destroy guarded_posts_view 42 [7; 42] [] =
    (inl (new_PermissionDenied
            "Published posts cannot be deleted. Unpublish first."),
     [7; 42], [Enter Before])
  /\ response_of (mkViewSet false true)
       (new_PermissionDenied
          "Published posts cannot be deleted. Unpublish first.")
     = mkResponse
         (VDict [("error",
                  VDict [("code", VStr "permission_denied");
                         ("message",
                          VStr "Published posts cannot be deleted. Unpublish first.");
                         ("details", VNone)])])
         403.
Proof. split; reflexivity. Qed.

(** C7: the list pipeline runs Before on the queryset, then the parent's
    filter_queryset on what Before returned (in the world Before left), then
    After on what the filter returned, and returns After's result; the first
    of the three to raise ends the run there.  When all three return, the
    result is After(filter(Before(queryset))). *)
Theorem filter_queryset_wraps_external_filter
    {World Serializer Instance KwargsT QuerySet : Type}
    (m : Methods World Serializer Instance KwargsT QuerySet)
    (queryset : QuerySet) (w : World) :
  filter_queryset m queryset w [] =
    match before_perform_list m queryset w with
    | (inl exc, w1) => (inl exc, w1, [Enter Before])
    | (inr q1, w1) =>
        match super_filter_queryset m q1 w1 with
        | (inl exc, w2) =>
            (inl exc, w2, [Enter Before; Exit Before; Enter ExternalFilter])
        | (inr q2, w2) =>
            match after_perform_list m q2 w2 with
            | (inl exc, w3) =>
                (inl exc, w3,
                 [Enter Before; Exit Before;
                  Enter ExternalFilter; Exit ExternalFilter; Enter After])
            | (inr q3, w3) =>
                (inr q3, w3,
                 [Enter Before; Exit Before;
                  Enter ExternalFilter; Exit ExternalFilter;
                  Enter After; Exit After])
            end
        end
    end
  /\ forall (before external after : QuerySet -> QuerySet),
       (forall q w0, before_perform_list m q w0 = (inr (before q), w0)) ->
       (forall q w0, super_filter_queryset m q w0 = (inr (external q), w0)) ->
       (forall q w0, after_perform_list m q w0 = (inr (after q), w0)) ->
       outcome (filter_queryset m queryset) w
         = inr (after (external (before queryset))).
Proof.
  split.
  - run_pipeline.
    split_method (before_perform_list m queryset w); [reflexivity|].
    split_method (super_filter_queryset m r w0); [reflexivity|].
    split_method (after_perform_list m r0 w1); reflexivity.
  - intros before external after Hb He Ha.
    run_pipeline. rewrite Hb, He, Ha. reflexivity.
Qed.

Lemma filter_queryset_wraps_external_filter_witness :
  outcome (filter_queryset (posts_view 1) [3; 1; 2]) [1; 2; 3]
    = inr [3; 1; 2].
Proof.
  apply (proj2 (filter_queryset_wraps_external_filter (posts_view 1)
                  [3; 1; 2] [1; 2; 3])
           (fun q => q) (fun q => q) (fun q => q));
    reflexivity.
Defined.

(** C4: when the parent's get_object raises Http404 or ObjectDoesNotExist,
    get_object raises NotFound in its place, in the world the lookup left;
    retrieve stops at the lookup, and the response the dispatcher gives is
    404 / not_found, with message "Object not found." for an Http404 (what a
    missing id raises) and str(exc) for an ObjectDoesNotExist. *)
Theorem safe_lookup_not_found
    {World Serializer Instance KwargsT QuerySet : Type}
    (self : ViewSet)
    (m : Methods World Serializer Instance KwargsT QuerySet)
    (w w' : World) (exc : Exc) :
  super_get_object m w = (inl exc, w') ->
  isinstance_any exc [Http404; ObjectDoesNotExist] = true ->
  get_object m w =
    (inl (new_NotFound (if isinstance exc Http404
                        then "Object not found." else exc_str exc)), w')
  /\ kind_of (new_NotFound (if isinstance exc Http404
                            then "Object not found." else exc_str exc))
     = not_found
  /\ retrieve m w [] =
       (inl (new_NotFound (if isinstance exc Http404
                           then "Object not found." else exc_str exc)),
        w', [Enter Lookup])
  /\ dispatch self (retrieve m) w =
       mkResponse
         (VDict [("error",
                  VDict [("code", VStr "not_found");
                         ("message",
                          VStr (if isinstance exc Http404
                                then "Object not found." else exc_str exc));
                         ("details", VNone)])])
         404.
Proof.
  intros Hget Hcls.
  assert (Hobj : get_object m w =
    (inl (new_NotFound (if isinstance exc Http404
                        then "Object not found." else exc_str exc)), w')).
  { unfold get_object. rewrite Hget.
    unfold isinstance_any in Hcls. cbn [existsb] in Hcls.
    destruct (isinstance exc Http404); [reflexivity|].
    destruct (isinstance exc ObjectDoesNotExist); [reflexivity|].
    discriminate Hcls. }
  split; [exact Hobj|]. split; [reflexivity|].
  assert (Hret : retrieve m w [] =
    (inl (new_NotFound (if isinstance exc Http404
                        then "Object not found." else exc_str exc)),
     w', [Enter Lookup])).
  { run_pipeline. rewrite Hobj. reflexivity. }
  split; [exact Hret|].
  unfold dispatch. rewrite Hret. reflexivity.
Qed.

Lemma safe_lookup_not_found_witness :
  dispatch (mkViewSet false true) (retrieve (posts_view 999)) [1; 2; 3] =
    mkResponse
      (VDict [("error",
               VDict [("code", VStr "not_found");
                      ("message", VStr "Object not found.");
                      ("details", VNone)])])
      404.
Proof.
  apply (safe_lookup_not_found (mkViewSet false true) (posts_view 999)
           [1; 2; 3] [1; 2; 3] http404_exc); reflexivity.
Defined.

(** C8: the success builder returns the envelope with exactly the keys
    message and data, holding the message and the payload it was given, and
    the data read back from the response is the payload. *)
Theorem success_response_preserves_data (self : ViewSet) (d : Value)
    (msg : string) (code : option Z) :
  resp_data (success_response self (Some d) (Some msg) code)
    = VDict [("message", VStr msg); ("data", d)]
  /\ (exists body,
        resp_data (success_response self (Some d) (Some msg) code) = VDict body
        /\ dict_get "data" body = Some d
        /\ dict_get "message" body = Some (VStr msg)).
Proof.
  split; [reflexivity|].
  eexists. split; [reflexivity|]. split; reflexivity.
Qed.

(** ** The error envelope *)

Lemma dict_keys_set_has (k : string) (v : Value) (d : Dict) :
  In k (dict_keys (dict_set k v d)).
Proof.
  unfold dict_keys.
  induction d as [|[k' v'] rest IH]; simpl; [auto|].
  destruct (String.eqb k k') eqn:E; simpl; [|auto].
  apply String.eqb_eq in E. auto.
Qed.

Lemma dict_keys_update_has (extra d : Dict) (x : string) :
  In x (dict_keys extra) -> In x (dict_keys (dict_update d extra)).
Proof.
  unfold dict_update. revert d.
  induction extra as [|[k v] rest IH]; simpl; intros d H; [contradiction|].
  destruct H as [<-|H]; [|now apply IH].
  apply (dict_keys_update_incl rest). apply dict_keys_set_has.
Qed.

(** C10: the body [_error_response] builds is the one-key object error whose
    inner object has the keys code, message and details; with no extra, or an
    empty one, it has exactly these three, details being the errors given
    (null when none were); the keys of a non-empty extra are merged in and no
    other key appears.  For the handler: every response is such an envelope,
    details is null for every kind that hands over no structured errors, only
    a throttled failure brings a further key, and a throttled failure without
    a wait has no retry_after key. *)
Theorem error_envelope_shape (self : ViewSet) (exc : Exc)
    (message code : string) (sc : Z) (errors : Value) (extra : option Dict) :
  (exists inner,
     resp_data (_error_response message code sc errors extra)
       = VDict [("error", VDict inner)]
     /\ In "code" (dict_keys inner)
     /\ In "message" (dict_keys inner)
     /\ In "details" (dict_keys inner)
     /\ (truthy extra = false ->
         inner = [("code", VStr code); ("message", VStr message);
                  ("details", errors)])
     /\ (forall x k, extra = Some x -> In k (dict_keys x) ->
         In k (dict_keys inner))
     /\ (forall k, In k (dict_keys inner) ->
         In k ["code"; "message"; "details"]
         \/ exists x, extra = Some x /\ In k (dict_keys x)))
  /\
  (exists inner,
     resp_data (response_of self exc) = VDict [("error", VDict inner)]
     /\ dict_get "code" inner <> None
     /\ dict_get "message" inner <> None
     /\ dict_get "details" inner <> None
     /\ (carries_errors (kind_of exc) = false ->
         dict_get "details" inner = Some VNone)
     /\ (kind_of exc <> throttled ->
         dict_keys inner = ["code"; "message"; "details"])
     /\ (kind_of exc = throttled -> wait exc = None ->
         inner = [("code", VStr "throttled");
                  ("message", VStr "Request throttled. Try again later.");
                  ("details", VNone)]
         /\ dict_get "retry_after" inner = None)
     /\ (forall w, kind_of exc = throttled -> wait exc = Some w ->
         dict_get "retry_after" inner = Some (VInt w))).
Proof.
  split.
  - unfold _error_response.
    destruct extra as [[|kv rest]|]; cbn [truthy].
    + eexists. split; [reflexivity|]. cbn.
      repeat split; auto; try discriminate.
      intros x k Hx Hk. injection Hx as <-. destruct Hk.
    + eexists. split; [reflexivity|].
      repeat split; try discriminate.
      * apply dict_keys_update_incl. cbn. auto.
      * apply dict_keys_update_incl. cbn. auto.
      * apply dict_keys_update_incl. cbn. auto.
      * intros x k Hx Hk. injection Hx as <-.
        now apply dict_keys_update_has.
      * intros k Hk. apply dict_keys_update_inv in Hk.
        destruct Hk as [Hk|Hk]; [left; exact Hk|].
        right. eexists. split; [reflexivity|exact Hk].
    + eexists. split; [reflexivity|]. cbn.
      repeat split; auto; discriminate.
  - remember (kind_of exc) as k eqn:Hk. symmetry in Hk. revert Hk.
    by_kind; intros <-;
      destruct (wait exc) as [w0|];
      (eexists; split; [reflexivity|]); cbn;
      repeat split; try discriminate; try congruence.
Qed.

Lemma error_envelope_shape_witness :
  resp_data (response_of (mkViewSet false true) (throttled_exc None))
  = VDict [("error",
            VDict [("code", VStr "throttled");
                   ("message", VStr "Request throttled. Try again later.");
                   ("details", VNone)])].
Proof.
  destruct (proj2 (error_envelope_shape (mkViewSet false true)
                     (throttled_exc None) "" "" 0 VNone None))
    as (inner & Hd & _ & _ & _ & _ & _ & Ht & _).
  rewrite Hd. destruct (Ht eq_refl eq_refl) as [-> _]. reflexivity.
Defined.

(** * Further properties *)

(** ** The classifier, branch by branch *)

(** Follow the chain of [kind_of] in its own order; [tac] closes the branch
    reached. *)
Ltac follow_chain tac :=
  repeat lazymatch goal with
  | |- (if ?c then _ else _) = _ -> _ =>
      destruct c eqn:?; cbv iota; [solve [tac]|]
  end.

(** The handler looks at the classes of an exception only to pick its branch:
    the result is that of an exception with the same attributes whose classes
    are just those of the branch. *)
Lemma handle_exception_by_kind (self : ViewSet) (exc : Exc) (k : Kind) :
  kind_of exc = k ->
  handle_exception self exc
    = handle_exception self (with_mro (branch_classes k) exc).
Proof.
  unfold kind_of. unfold handle_exception at 1.
  follow_chain ltac:(intros <-; reflexivity).
  intros <-. reflexivity.
Qed.

(** A failure of a kind is an instance of a class its branch tests for, and
    of none when it is unknown. *)
Lemma kind_of_classes (exc : Exc) (k : Kind) :
  kind_of exc = k ->
  isinstance_any exc (branch_classes k)
    = match k with unknown => false | _ => true end.
Proof.
  unfold kind_of.
  follow_chain ltac:(intros <-; cbn [branch_classes];
                     first [assumption
                           | unfold isinstance_any; cbn [existsb];
                             rewrite orb_false_r; assumption]).
  intros <-. reflexivity.
Qed.

(** ** The handler on Python exception objects *)












Ltac in_list := cbn; solve [repeat first [left; reflexivity | right]].

(** An APIException that reaches no earlier branch stops at the generic
    APIException branch. *)
Lemma api_exception_kind (exc : Exc) (k : Kind) :
  isinstance exc APIException = true ->
  kind_of exc = k ->
  In k [validation; parse; authentication; permission_denied; not_found;
        method_not_allowed; not_acceptable; unsupported_media; throttled;
        generic_api_error].
Proof.
  intros H. unfold kind_of.
  repeat lazymatch goal with
  | |- (if ?c then _ else _) = _ -> _ =>
      destruct c eqn:?; cbv iota;
      [solve [intros <-; in_list] | try congruence]
  end.
Qed.

(** X1: the catch-all branch, the one that writes the "Unhandled exception"
    entry with the traceback, is taken exactly by the exceptions that are an
    instance of no class the handler tests for; an exception of any tested
    class never falls through to it. *)
Theorem catch_all_iff_unrecognized (self : ViewSet) (exc : Exc) :
  fst (handle_exception self exc)
    = [mkLog ERROR "Unhandled exception in %s [%s %s]: %s" true]
  <-> forallb (fun c => negb (isinstance exc c)) recognized = true.
Proof.
  unfold handle_exception, isinstance_any, recognized.
  cbn [existsb forallb].
  repeat match goal with
  | |- context [isinstance exc ?c] =>
      destruct (isinstance exc c) eqn:?;
      cbn [negb andb orb fst];
      try (split; intros; discriminate)
  end.
  split; reflexivity.
Qed.

(** X3: the status of a response is the exception's own status_code only in
    the authentication and generic APIException branches; for an exception
    that is no APIException, NotAuthenticated or AuthenticationFailed it is
    one of 400, 403, 404, 405, 406, 409, 415, 429, 500 and 503. *)
Theorem response_status_is_an_error_status (self : ViewSet) (exc : Exc) :
  isinstance_any exc [NotAuthenticated; AuthenticationFailed; APIException]
    = false ->
  In (resp_status (response_of self exc))
     [400; 403; 404; 405; 406; 409; 415; 429; 500; 503].
Proof.
  intros H. unfold response_of.
  rewrite (handle_exception_by_kind self exc (kind_of exc) eq_refl).
  pose proof (kind_of_classes exc (kind_of exc) eq_refl) as Hc.
  unfold isinstance_any in H. cbn [existsb] in H.
  destruct (isinstance exc NotAuthenticated) eqn:E1; [discriminate H|].
  destruct (isinstance exc AuthenticationFailed) eqn:E2; [discriminate H|].
  destruct (isinstance exc APIException) eqn:E3; [discriminate H|].
  destruct (kind_of exc); try solve [in_list];
    unfold isinstance_any in Hc; cbn in Hc;
    rewrite ?orb_false_r in Hc; rewrite ?E1, ?E2, ?E3 in Hc;
    discriminate Hc.
Qed.

Lemma response_status_is_an_error_status_witness :
  In (resp_status (response_of (mkViewSet false false) protected_error_12))
     [400; 403; 404; 405; 406; 409; 415; 429; 500; 503].
Proof.
  apply (response_status_is_an_error_status (mkViewSet false false)
           protected_error_12).
  reflexivity.
Defined.

(** X4: an exception that is an APIException is answered by one of the ten
    framework branches, whatever other classes it derives from, and the
    message the client gets is one of the three fixed texts of the
    validation, parse and throttle branches or the exception's own detail. *)
Theorem api_exception_takes_a_framework_branch (self : ViewSet) (exc : Exc) :
  isinstance exc APIException = true ->
  In (kind_of exc)
     [validation; parse; authentication; permission_denied; not_found;
      method_not_allowed; not_acceptable; unsupported_media; throttled;
      generic_api_error]
  /\ In (error_field "message" (response_of self exc))
       [Some (VStr "Invalid input."); Some (VStr "Malformed request body.");
        Some (VStr "Request throttled. Try again later.");
        Some (VStr (str_detail exc))].
Proof.
  intros H.
  pose proof (api_exception_kind exc (kind_of exc) H eq_refl) as Hk.
  split; [exact Hk|].
  unfold response_of.
  rewrite (handle_exception_by_kind self exc (kind_of exc) eq_refl).
  cbn [In] in Hk.
  repeat (destruct Hk as [<- | Hk];
          [cbn; destruct (wait exc); in_list|]).
  destruct Hk.
Qed.

Lemma api_exception_takes_a_framework_branch_witness :
  In (kind_of (throttled_exc (Some 30)))
     [validation; parse; authentication; permission_denied; not_found;
      method_not_allowed; not_acceptable; unsupported_media; throttled;
      generic_api_error].
Proof.
  apply (api_exception_takes_a_framework_branch (mkViewSet false true)
           (throttled_exc (Some 30))).
  reflexivity.
Defined.

(** X5: the handler writes at most one log entry, the same whatever the
    flags of the view set; the entry is at CRITICAL, with the traceback,
    exactly for the storage_unavailable and storage_error kinds, and nothing
    is logged exactly for the method_not_allowed, not_acceptable,
    unsupported_media and throttled kinds. *)
Theorem handler_logging (self self' : ViewSet) (exc : Exc) :
  (List.length (fst (handle_exception self exc)) <= 1)%nat
  /\ fst (handle_exception self exc) = fst (handle_exception self' exc)
  /\ (In CRITICAL (map log_level (fst (handle_exception self exc)))
      <-> kind_of exc = storage_unavailable \/ kind_of exc = storage_error)
  /\ (fst (handle_exception self exc) = []
      <-> In (kind_of exc)
            [method_not_allowed; not_acceptable; unsupported_media;
             throttled]).
Proof.
  rewrite (handle_exception_by_kind self exc (kind_of exc) eq_refl).
  rewrite (handle_exception_by_kind self' exc (kind_of exc) eq_refl).
  destruct (kind_of exc); cbn;
    (split; [lia|]); (split; [reflexivity|]);
    split; split; intros H;
    try discriminate H; try reflexivity;
    try (now repeat destruct H as [H|H]; try discriminate H);
    auto 6.
Qed.

(** X19: the details of a framework validation or parse failure reach the
    client as they are: the response is a 400 whose details is exc.detail,
    under a fixed message that takes nothing from the exception. *)
Theorem validation_details_reach_the_client (self : ViewSet) (exc : Exc) :
  kind_of exc = validation \/ kind_of exc = parse ->
  resp_status (response_of self exc) = 400
  /\ error_field "details" (response_of self exc) = Some (detail exc)
  /\ error_field "message" (response_of self exc)
     = Some (VStr (match kind_of exc with
                   | validation => "Invalid input."
                   | _ => "Malformed request body."
                   end)).
Proof.
  intros H. unfold response_of.
  rewrite (handle_exception_by_kind self exc (kind_of exc) eq_refl).
  destruct H as [-> | ->]; repeat split; reflexivity.
Qed.

Lemma validation_details_reach_the_client_witness :
  error_field "details" (response_of (mkViewSet false true) duplicate_title_exc)
  = Some (VDict [("title",
                  VStr "You already have a post with this title.")]).
Proof.
  exact (proj1 (proj2 (validation_details_reach_the_client
                         (mkViewSet false true) duplicate_title_exc
                         (or_introl eq_refl)))).
Defined.

(** X20: for the Django-core and storage kinds with a fixed answer (http404,
    object_missing, multiple_objects, core_permission_denied,
    suspicious_operation, field_missing, storage_unavailable, storage_error
    and unknown) the response is a function of the kind alone: two failures
    of one such kind get the same response whatever their attributes and
    whatever the flags of the view sets that handle them. *)
Theorem fixed_kinds_reveal_nothing (self self' : ViewSet) (exc exc' : Exc) :
  kind_of exc = kind_of exc' ->
  In (kind_of exc)
     [http404; object_missing; multiple_objects; core_permission_denied;
      suspicious_operation; field_missing; storage_unavailable;
      storage_error; unknown] ->
  response_of self exc = response_of self' exc'.
Proof.
  intros Hk Hin. unfold response_of.
  rewrite (handle_exception_by_kind self exc (kind_of exc) eq_refl).
  rewrite (handle_exception_by_kind self' exc' (kind_of exc) (eq_sym Hk)).
  cbn [In] in Hin.
  repeat (destruct Hin as [<- | Hin]; [reflexivity|]).
  destruct Hin.
Qed.

Lemma fixed_kinds_reveal_nothing_witness :
  response_of (mkViewSet false false) operational_error_exc
  = response_of (mkViewSet true true)
      (blank_exc [OperationalError]
         "FATAL: password authentication failed for user app").
Proof.
  apply (fixed_kinds_reveal_nothing (mkViewSet false false)
           (mkViewSet true true) operational_error_exc
           (blank_exc [OperationalError]
              "FATAL: password authentication failed for user app")).
  - reflexivity.
  - cbn. auto 10.
Defined.

(** ** The envelope: how extra is merged *)

Lemma dict_get_set (k0 k : string) (v : Value) (d : Dict) :
  dict_get k0 (dict_set k v d)
    = if String.eqb k0 k then Some v else dict_get k0 d.
Proof.
  induction d as [|[k' v'] rest IH]; simpl; [reflexivity|].
  destruct (String.eqb k k') eqn:E; simpl.
  - apply String.eqb_eq in E. subst k'.
    destruct (String.eqb k0 k); reflexivity.
  - rewrite IH.
    destruct (String.eqb k0 k') eqn:E'; [|reflexivity].
    apply String.eqb_eq in E'. subst k'.
    rewrite String.eqb_sym, E. reflexivity.
Qed.

Lemma dict_get_absent (k : string) (d : Dict) :
  ~ In k (dict_keys d) -> dict_get k d = None.
Proof.
  unfold dict_keys.
  induction d as [|[k' v'] rest IH]; simpl; intros H; [reflexivity|].
  destruct (String.eqb k k') eqn:E.
  - apply String.eqb_eq in E. subst. tauto.
  - apply IH. tauto.
Qed.

Lemma dict_get_update (extra d : Dict) (k : string) :
  NoDup (dict_keys extra) ->
  dict_get k (dict_update d extra)
    = match dict_get k extra with
      | Some v => Some v
      | None => dict_get k d
      end.
Proof.
  unfold dict_update. revert d.
  induction extra as [|[k1 v1] rest IH]; intros d Hnd; [reflexivity|].
  cbn [dict_keys map fst] in Hnd. inversion Hnd as [|? ? Hnotin Hrest]; subst.
  cbn [fold_left fst snd dict_get].
  rewrite (IH _ Hrest), dict_get_set.
  destruct (String.eqb k k1) eqn:E; [|reflexivity].
  apply String.eqb_eq in E. subst k1.
  now rewrite (dict_get_absent k rest Hnotin).
Qed.

Lemma dict_set_NoDup (k : string) (v : Value) (d : Dict) :
  NoDup (dict_keys d) -> NoDup (dict_keys (dict_set k v d)).
Proof.
  induction d as [|[k' v'] rest IH]; intros H.
  - repeat constructor. intros [].
  - cbn [dict_keys map fst] in H. inversion H as [|? ? Hnotin Hrest]; subst.
    cbn [dict_set]. destruct (String.eqb k k') eqn:E.
    + exact H.
    + cbn [dict_keys map fst]. constructor; [|now apply IH].
      intros Hin. apply dict_keys_set_inv in Hin.
      destruct Hin as [->|Hin]; [|contradiction].
      now rewrite String.eqb_refl in E.
Qed.

Lemma dict_update_NoDup (extra d : Dict) :
  NoDup (dict_keys d) -> NoDup (dict_keys (dict_update d extra)).
Proof.
  unfold dict_update. revert d.
  induction extra as [|[k v] rest IH]; intros d H; [exact H|].
  cbn [fold_left]. apply IH. now apply dict_set_NoDup.
Qed.

(** X6: [_error_response] merges extra over the three standard keys: a key
    of extra is read back with extra's value, also when it is code, message
    or details, every other key keeps its standard value, and the inner
    object never holds a key twice. *)
Theorem error_response_extra_wins (message code : string) (sc : Z)
    (errors : Value) (x : Dict) :
  NoDup (dict_keys x) ->
  exists inner,
    resp_data (_error_response message code sc errors (Some x))
      = VDict [("error", VDict inner)]
    /\ (forall k,
          dict_get k inner
            = match dict_get k x with
              | Some v => Some v
              | None =>
                  dict_get k [("code", VStr code); ("message", VStr message);
                              ("details", errors)]
              end)
    /\ NoDup (dict_keys inner)
    /\ resp_status (_error_response message code sc errors (Some x)) = sc.
Proof.
  intros Hnd.
  assert (Hbase : NoDup (dict_keys [("code", VStr code);
                                    ("message", VStr message);
                                    ("details", errors)])).
  { cbn. repeat constructor; cbn; intuition discriminate. }
  unfold _error_response. destruct x as [|kv rest]; cbn [truthy].
  - eexists. split; [reflexivity|]. split; [|split]; auto.
  - eexists. split; [reflexivity|]. split; [|split]; auto.
    + intros k. now apply dict_get_update.
    + now apply dict_update_NoDup.
Qed.

Lemma error_response_extra_wins_witness :
  error_field "code"
    (_error_response "Slow down." "throttled" 429 VNone
       (Some [("retry_after", VInt 30); ("code", VStr "rate_limited")]))
  = Some (VStr "rate_limited").
Proof.
  destruct (error_response_extra_wins "Slow down." "throttled" 429 VNone
              [("retry_after", VInt 30); ("code", VStr "rate_limited")])
    as (inner & Hd & Hget & _).
  - repeat constructor; cbn; intuition discriminate.
  - unfold error_field, error_object, Dict in *. rewrite Hd, Hget. reflexivity.
Defined.

(** ** The safe wrappers *)

(** X7: get_object changes nothing but the two signals of a missing row: a
    result of the parent's get_object that is not an Http404 or an
    ObjectDoesNotExist is returned or raised as it is, in the world the
    parent left; and whatever get_object raises is never an instance of
    Http404 or ObjectDoesNotExist. *)
Theorem get_object_passes_the_rest
    {World Serializer Instance KwargsT QuerySet : Type}
    (m : Methods World Serializer Instance KwargsT QuerySet) (w : World) :
  ((forall exc, fst (super_get_object m w) = inl exc ->
      isinstance_any exc [Http404; ObjectDoesNotExist] = false) ->
   get_object m w = super_get_object m w)
  /\ snd (get_object m w) = snd (super_get_object m w)
  /\ (forall exc, fst (get_object m w) = inl exc ->
        isinstance exc Http404 = false
        /\ isinstance exc ObjectDoesNotExist = false).
Proof.
  unfold get_object, isinstance_any. cbn [existsb].
  destruct (super_get_object m w) as [[exc|obj] w']; cbn [fst snd].
  - split; [|split].
    + intros H. specialize (H exc eq_refl).
      destruct (isinstance exc Http404); [discriminate H|].
      destruct (isinstance exc ObjectDoesNotExist); [discriminate H|].
      reflexivity.
    + destruct (isinstance exc Http404); [reflexivity|].
      destruct (isinstance exc ObjectDoesNotExist); reflexivity.
    + intros e.
      destruct (isinstance exc Http404) eqn:E1;
        [intros He; injection He as <-; split; reflexivity|].
      destruct (isinstance exc ObjectDoesNotExist) eqn:E2;
        intros He; injection He as <-; split; auto.
  - split; [|split]; auto. intros e He. discriminate He.
Qed.

Lemma get_object_passes_the_rest_witness :
  get_object (posts_view 2) [1; 2; 3] = (inr 2, [1; 2; 3]).
Proof.
  apply (proj1 (get_object_passes_the_rest (posts_view 2) [1; 2; 3])).
  intros exc H. discriminate H.
Defined.

(** X8: get_queryset turns an ObjectDoesNotExist of the parent into
    NotFound(str(exc)), which the handler answers with 404 / not_found and
    that text; anything else, an Http404 included, it returns or raises as it
    is; and it never raises an instance of ObjectDoesNotExist. *)
Theorem get_queryset_translates_object_missing
    {World Serializer Instance KwargsT QuerySet : Type}
    (self : ViewSet)
    (m : Methods World Serializer Instance KwargsT QuerySet) (w : World) :
  (forall exc, fst (super_get_queryset m w) = inl exc ->
     isinstance exc ObjectDoesNotExist = true ->
     get_queryset m w
       = (inl (new_NotFound (exc_str exc)), snd (super_get_queryset m w))
     /\ response_of self (new_NotFound (exc_str exc))
        = mkResponse
            (VDict [("error",
                     VDict [("code", VStr "not_found");
                            ("message", VStr (exc_str exc));
                            ("details", VNone)])])
            404)
  /\ ((forall exc, fst (super_get_queryset m w) = inl exc ->
         isinstance exc ObjectDoesNotExist = false) ->
      get_queryset m w = super_get_queryset m w)
  /\ (forall exc, fst (get_queryset m w) = inl exc ->
        isinstance exc ObjectDoesNotExist = false).
Proof.
  unfold get_queryset.
  destruct (super_get_queryset m w) as [[exc|qs] w']; cbn [fst snd].
  - split; [|split].
    + intros e He Hi. injection He as <-. rewrite Hi.
      split; reflexivity.
    + intros H. now rewrite (H exc eq_refl).
    + intros e. destruct (isinstance exc ObjectDoesNotExist) eqn:E;
        intros He; injection He as <-; auto.
  - split; [|split]; auto; intros e He; discriminate He.
Qed.

Lemma get_queryset_translates_object_missing_witness :
  get_queryset blog_comments_base []
    = (inl (new_NotFound "Post matching query does not exist."), []).
Proof.
  exact (proj1 (proj1 (get_queryset_translates_object_missing
                         (mkViewSet true true) blog_comments_base [])
                  does_not_exist_exc eq_refl eq_refl)).
Defined.

(** ** The pipelines, further *)

(** X9: with the hooks as BaseViewSet defines them the pipelines add nothing
    to the collaborator they wrap: perform_create and perform_update are
    serializer.save() with no extra keyword arguments, perform_destroy is
    instance.delete() and filter_queryset is the parent's filter_queryset,
    in outcome and in the world they leave. *)
Theorem default_hooks_are_transparent
    {World Serializer Instance KwargsT QuerySet : Type}
    (empty_kwargs : KwargsT)
    (save : Serializer -> KwargsT -> Method World Instance)
    (delete : Instance -> Method World unit)
    (parent_filter_queryset : QuerySet -> Method World QuerySet)
    (parent_get_queryset : Method World QuerySet)
    (parent_get_object : Method World Instance)
    (serializer_for : Instance -> Method World Serializer)
    (data_of : Serializer -> Method World Value)
    (serializer : Serializer) (instance : Instance) (queryset : QuerySet)
    (w : World) :
  let m := base_methods empty_kwargs save delete parent_filter_queryset
             parent_get_queryset parent_get_object serializer_for data_of in
  (outcome (perform_create m serializer) w,
   world_after (perform_create m serializer) w)
    = save serializer empty_kwargs w
  /\ (outcome (perform_update m serializer) w,
      world_after (perform_update m serializer) w)
     = save serializer empty_kwargs w
  /\ (outcome (perform_destroy m instance) w,
      world_after (perform_destroy m instance) w)
     = delete instance w
  /\ (outcome (filter_queryset m queryset) w,
      world_after (filter_queryset m queryset) w)
     = parent_filter_queryset queryset w.
Proof.
  cbv zeta. unfold outcome, world_after.
  repeat split; run_pipeline; cbn.
  - destruct (save serializer empty_kwargs w) as [[exc|i] w']; reflexivity.
  - destruct (save serializer empty_kwargs w) as [[exc|i] w']; reflexivity.
  - destruct (delete instance w) as [[exc|[]] w']; reflexivity.
  - destruct (parent_filter_queryset queryset w) as [[exc|q] w']; reflexivity.
Qed.

(** X11: a create that returns has run its four steps in sequence, each in
    the world the one before left: save was given the keyword arguments
    get_create_kwargs returned, the After hook was given the instance save
    returned, and that instance is the result.  A create that raises raises
    the exception of the step that failed, unchanged, and leaves the world
    as that step left it: nothing is rolled back. *)
Theorem perform_create_threads_its_steps
    {World Serializer Instance KwargsT QuerySet : Type}
    (m : Methods World Serializer Instance KwargsT QuerySet)
    (serializer : Serializer) (w : World) :
  (forall instance,
     outcome (perform_create m serializer) w = inr instance ->
     exists w1 kwargs w2 w3,
       before_perform_create m serializer w = (inr tt, w1)
       /\ get_create_kwargs m serializer w1 = (inr kwargs, w2)
       /\ serializer_save m serializer kwargs w2 = (inr instance, w3)
       /\ after_perform_create m instance serializer w3
          = (inr tt, world_after (perform_create m serializer) w))
  /\ (forall exc,
        outcome (perform_create m serializer) w = inl exc ->
        let w' := world_after (perform_create m serializer) w in
        before_perform_create m serializer w = (inl exc, w')
        \/ (exists w1,
              before_perform_create m serializer w = (inr tt, w1)
              /\ (get_create_kwargs m serializer w1 = (inl exc, w')
                  \/ exists kwargs w2,
                       get_create_kwargs m serializer w1 = (inr kwargs, w2)
                       /\ (serializer_save m serializer kwargs w2
                             = (inl exc, w')
                           \/ exists instance w3,
                                serializer_save m serializer kwargs w2
                                  = (inr instance, w3)
                                /\ after_perform_create m instance
                                     serializer w3 = (inl exc, w'))))).
Proof.
  cbv zeta. unfold outcome, world_after. run_pipeline.
  destruct (before_perform_create m serializer w) as [[e0|[]] w1] eqn:Hb;
    cbn [fst snd].
  { split; [intros i H; discriminate H|].
    intros exc H. injection H as <-. left. reflexivity. }
  destruct (get_create_kwargs m serializer w1) as [[e1|k] w2] eqn:Hk;
    cbn [fst snd].
  { split; [intros i H; discriminate H|].
    intros exc H. injection H as <-. right. exists w1. split; [reflexivity|].
    left. exact Hk. }
  destruct (serializer_save m serializer k w2) as [[e2|i] w3] eqn:Hs;
    cbn [fst snd].
  { split; [intros i H; discriminate H|].
    intros exc H. injection H as <-. right. exists w1. split; [reflexivity|].
    right. exists k, w2. split; [exact Hk|]. left. exact Hs. }
  destruct (after_perform_create m i serializer w3) as [[e3|[]] w4] eqn:Ha;
    cbn [fst snd].
  { split; [intros i' H; discriminate H|].
    intros exc H. injection H as <-. right. exists w1. split; [reflexivity|].
    right. exists k, w2. split; [exact Hk|].
    right. exists i, w3. split; [exact Hs|exact Ha]. }
  split; [|intros exc H; discriminate H].
  intros i' H. injection H as <-.
  exists w1, k, w2, w3. repeat split; auto.
Qed.

Lemma perform_create_threads_its_steps_witness :
  exists w1 kwargs w2 w3,
    before_perform_create (posts_view 1) 7 [1; 2] = (inr tt, w1)
    /\ get_create_kwargs (posts_view 1) 7 w1 = (inr kwargs, w2)
    /\ serializer_save (posts_view 1) 7 kwargs w2 = (inr 7, w3)
    /\ after_perform_create (posts_view 1) 7 7 w3
       = (inr tt, world_after (perform_create (posts_view 1) 7) [1; 2]).
Proof.
  apply (proj1 (perform_create_threads_its_steps (posts_view 1) 7 [1; 2])).
  reflexivity.
Defined.

(** X12: retrieve calls get_object first, in the world it was started in;
    then, on the object it returned and each in the world the step before
    left, the Before hook, get_serializer, the After hook and, last,
    serializer.data; the first of the five to raise ends the run with its
    exception and its world, the later ones not called.  A retrieve that
    returns answers 200 with what serializer.data returned, read after the
    After hook. *)
Theorem retrieve_runs_in_order
    {World Serializer Instance KwargsT QuerySet : Type}
    (m : Methods World Serializer Instance KwargsT QuerySet) (w : World) :
  retrieve m w [] =
    match get_object m w with
    | (inl exc, w1) => (inl exc, w1, [Enter Lookup])
    | (inr instance, w1) =>
        match before_perform_retrieve m instance w1 with
        | (inl exc, w2) =>
            (inl exc, w2, [Enter Lookup; Exit Lookup; Enter Before])
        | (inr _, w2) =>
            match get_serializer m instance w2 with
            | (inl exc, w3) =>
                (inl exc, w3,
                 [Enter Lookup; Exit Lookup; Enter Before; Exit Before;
                  Enter Serialize])
            | (inr serializer, w3) =>
                match after_perform_retrieve m instance w3 with
                | (inl exc, w4) =>
                    (inl exc, w4,
                     [Enter Lookup; Exit Lookup; Enter Before; Exit Before;
                      Enter Serialize; Exit Serialize; Enter After])
                | (inr _, w4) =>
                    match serializer_data m serializer w4 with
                    | (inl exc, w5) =>
                        (inl exc, w5,
                         [Enter Lookup; Exit Lookup; Enter Before;
                          Exit Before; Enter Serialize; Exit Serialize;
                          Enter After; Exit After; Enter Serialize])
                    | (inr data, w5) =>
                        (inr (mkResponse data 200), w5,
                         [Enter Lookup; Exit Lookup; Enter Before;
                          Exit Before; Enter Serialize; Exit Serialize;
                          Enter After; Exit After; Enter Serialize;
                          Exit Serialize])
                    end
                end
            end
        end
    end.
Proof.
  run_pipeline.
  destruct (get_object m w) as [[e0|i] w1]; [reflexivity|].
  destruct (before_perform_retrieve m i w1) as [[e1|[]] w2]; [reflexivity|].
  destruct (get_serializer m i w2) as [[e2|ser] w3]; [reflexivity|].
  destruct (after_perform_retrieve m i w3) as [[e3|[]] w4]; [reflexivity|].
  destruct (serializer_data m ser w4) as [[e4|data] w5]; reflexivity.
Qed.

(** ** Request logging *)

(** X13: with LOG_REQUESTS off, initial is the parent's initial and writes
    nothing.  With it on, request.user and then request.data are read first:
    if either raises, initial raises that exception, the parent's initial
    never runs and nothing is logged; otherwise one DEBUG entry is written
    and the outcome is the parent's, run in the world the two reads left. *)
Theorem initial_reads_the_request_before_the_parent {World : Type}
    (self : ViewSet) (super_initial : Request World -> Method World unit)
    (request : Request World) (w : World) :
  (LOG_REQUESTS self = false ->
   initial self super_initial request w
     = (fst (super_initial request w), snd (super_initial request w), []))
  /\ (LOG_REQUESTS self = true ->
      forall exc w1,
        req_user request w = (inl exc, w1) ->
        initial self super_initial request w = (inl exc, w1, []))
  /\ (LOG_REQUESTS self = true ->
      forall user w1 exc w2,
        req_user request w = (inr user, w1) ->
        req_data request w1 = (inl exc, w2) ->
        initial self super_initial request w = (inl exc, w2, []))
  /\ (LOG_REQUESTS self = true ->
      forall user w1 data w2,
        req_user request w = (inr user, w1) ->
        req_data request w1 = (inr data, w2) ->
        initial self super_initial request w
          = (fst (super_initial request w2), snd (super_initial request w2),
             [mkLog DEBUG "→ %s %s | user=%s | data=%s" false])).
Proof.
  unfold initial.
  split; [|split; [|split]]; intros ->.
  - destruct (super_initial request w); reflexivity.
  - intros exc w1 ->. reflexivity.
  - intros user w1 exc w2 -> ->. reflexivity.
  - intros user w1 data w2 -> ->.
    destruct (super_initial request w2); reflexivity.
Qed.

Lemma initial_reads_the_request_before_the_parent_witness :
  initial (mkViewSet true true) (fun _ w => (inr tt, "checked"%string :: w))
    bad_body_request []
  = (inl parse_error_exc, [], []).
Proof.
  apply (proj1 (proj2 (proj2
           (initial_reads_the_request_before_the_parent (mkViewSet true true)
              (fun _ w => (inr tt, "checked"%string :: w))
              bad_body_request []))) eq_refl (VInt 5) [] parse_error_exc []);
    reflexivity.
Defined.

(** X14: finalize_response returns or raises what the parent's
    finalize_response does, in the world it leaves, whatever LOG_REQUESTS is;
    it writes one DEBUG entry when the flag is on and the parent returned,
    and nothing otherwise. *)
Theorem finalize_response_is_the_parents {World : Type}
    (self : ViewSet)
    (super_finalize_response :
       Request World -> Response -> Method World Response)
    (request : Request World) (response : Response) (w : World) :
  fst (finalize_response self super_finalize_response request response w)
    = super_finalize_response request response w
  /\ snd (finalize_response self super_finalize_response request response w)
     = match fst (super_finalize_response request response w) with
       | inr _ =>
           if LOG_REQUESTS self
           then [mkLog DEBUG "← %s %s | status=%s" false]
           else []
       | inl _ => []
       end.
Proof.
  unfold finalize_response.
  destruct (super_finalize_response request response w) as [[exc|r] w'];
    split; reflexivity.
Qed.

(** X15: error_boundary changes nothing: the block's result, the exception
    it raised and the world it left are those of the block alone, so a
    failure inside it is neither swallowed nor replaced. *)
Theorem error_boundary_is_transparent {World A : Type}
    (body : Method World A) (w : World) :
  error_boundary body w = body w.
Proof.
  unfold error_boundary. destruct (body w) as [[exc|a] w']; reflexivity.
Qed.

(** ** The example view sets *)

(** X16: PostViewSet never deletes a published post: the destroy pipeline
    stops in the Before hook with PermissionDenied, delete is not called, the
    world is untouched and the handler answers 403 with the hook's message
    and no details.  A draft is deleted, and the deletion is logged only
    when delete returned. *)
Theorem published_post_is_never_deleted
    {World Serializer KwargsT QuerySet : Type}
    (self : ViewSet) (log_info : string -> World -> World)
    (m : Methods World Serializer Post KwargsT QuerySet)
    (instance : Post) (w : World) :
  (post_status instance = PUBLISHED ->
   perform_destroy (post_viewset log_info m) instance w []
     = (inl (new_PermissionDenied
               "Published posts cannot be deleted. Unpublish first."),
        w, [Enter Before])
   /\ response_of self
        (new_PermissionDenied
           "Published posts cannot be deleted. Unpublish first.")
      = mkResponse
          (VDict [("error",
                   VDict [("code", VStr "permission_denied");
                          ("message",
                           VStr "Published posts cannot be deleted. Unpublish first.");
                          ("details", VNone)])])
          403)
  /\ (post_status instance = DRAFT ->
      perform_destroy (post_viewset log_info m) instance w []
        = match instance_delete m instance w with
          | (inl exc, w') =>
              (inl exc, w', [Enter Before; Exit Before; Enter Perform])
          | (inr _, w') =>
              (inr tt, log_info "Post deleted: id=%s title=%r" w',
               [Enter Before; Exit Before; Enter Perform; Exit Perform;
                Enter After; Exit After])
          end).
Proof.
  split; intros Hs.
  - split; [|reflexivity].
    run_pipeline. cbn. unfold post_before_perform_destroy.
    rewrite Hs. reflexivity.
  - run_pipeline. cbn. unfold post_before_perform_destroy.
    rewrite Hs. cbn.
    destruct (instance_delete m instance w) as [[exc|[]] w']; reflexivity.
Qed.

Lemma published_post_is_never_deleted_witness :
  perform_destroy blog_posts_view (mkPost 3 9 "My First Post" PUBLISHED) [] []
    = (inl (new_PermissionDenied
              "Published posts cannot be deleted. Unpublish first."),
       [], [Enter Before])
  /\ perform_destroy blog_posts_view (mkPost 4 9 "Notes" DRAFT) [] []
     = (inr tt, ["Post deleted: id=%s title=%r"],
        [Enter Before; Exit Before; Enter Perform; Exit Perform;
         Enter After; Exit After]).
Proof.
  split.
  - exact (proj1 (proj1 (published_post_is_never_deleted
                           (mkViewSet true true) blog_log_info blog_posts_base
                           (mkPost 3 9 "My First Post" PUBLISHED) [])
                    eq_refl)).
  - exact (proj2 (published_post_is_never_deleted (mkViewSet true true)
                    blog_log_info blog_posts_base (mkPost 4 9 "Notes" DRAFT)
                    [])
             eq_refl).
Defined.

(** X17: CommentViewSet deletes a comment only for its author: for any other
    user the destroy pipeline stops in the Before hook with PermissionDenied,
    delete is not called, the world is untouched and the handler answers 403
    with "You can only delete your own comments." and no details; for the
    author it is the delete followed, when it returned, by the log entry. *)
Theorem comment_is_deleted_by_its_author_only
    {World Serializer QuerySet : Type}
    (self : ViewSet) (log_info : string -> World -> World)
    (request_user : Z) (post_pk : option Z)
    (posts_get : option Z -> Method World Post)
    (m : Methods World Serializer Comment (option CommentKwargs) QuerySet)
    (instance : Comment) (w : World) :
  (comment_author instance <> request_user ->
   perform_destroy
     (comment_viewset log_info request_user post_pk posts_get m) instance w []
     = (inl (new_PermissionDenied "You can only delete your own comments."),
        w, [Enter Before])
   /\ response_of self
        (new_PermissionDenied "You can only delete your own comments.")
      = mkResponse
          (VDict [("error",
                   VDict [("code", VStr "permission_denied");
                          ("message",
                           VStr "You can only delete your own comments.");
                          ("details", VNone)])])
          403)
  /\ (comment_author instance = request_user ->
      perform_destroy
        (comment_viewset log_info request_user post_pk posts_get m)
        instance w []
        = match instance_delete m instance w with
          | (inl exc, w') =>
              (inl exc, w', [Enter Before; Exit Before; Enter Perform])
          | (inr _, w') =>
              (inr tt,
               log_info "Comment deleted: id=%s post_id=%s by user=%s" w',
               [Enter Before; Exit Before; Enter Perform; Exit Perform;
                Enter After; Exit After])
          end).
Proof.
  split; intros Ha.
  - split; [|reflexivity].
    run_pipeline. cbn. unfold comment_before_perform_destroy.
    apply Z.eqb_neq in Ha. rewrite Ha. reflexivity.
  - run_pipeline. cbn. unfold comment_before_perform_destroy.
    apply Z.eqb_eq in Ha. rewrite Ha. cbn.
    destruct (instance_delete m instance w) as [[exc|[]] w']; reflexivity.
Qed.

Lemma comment_is_deleted_by_its_author_only_witness :
  perform_destroy (blog_comments_view (Some 3)) (mkComment 7 6 3) [] []
    = (inl (new_PermissionDenied "You can only delete your own comments."),
       [], [Enter Before])
  /\ perform_destroy (blog_comments_view (Some 3)) (mkComment 8 5 3) [] []
     = (inr tt, ["Comment deleted: id=%s post_id=%s by user=%s"],
        [Enter Before; Exit Before; Enter Perform; Exit Perform;
         Enter After; Exit After]).
Proof.
  split.
  - refine (proj1 (proj1 (comment_is_deleted_by_its_author_only
                            (mkViewSet true true) blog_log_info 5 (Some 3)
                            blog_posts_get blog_comments_base
                            (mkComment 7 6 3) [])
                     _)).
    discriminate.
  - exact (proj2 (comment_is_deleted_by_its_author_only (mkViewSet true true)
                    blog_log_info 5 (Some 3) blog_posts_get
                    blog_comments_base (mkComment 8 5 3) [])
             eq_refl).
Defined.

(** X18: CommentViewSet saves a comment only under a published post.  When
    the post cannot be fetched the exception of the lookup is raised as it
    is, and when the post is not published PermissionDenied is raised; in
    both cases serializer.save is not called.  When the post is published,
    save gets the request's user as author and that post. *)
Theorem comment_needs_a_published_post
    {World Serializer QuerySet : Type}
    (log_info : string -> World -> World)
    (request_user : Z) (post_pk : option Z)
    (posts_get : option Z -> Method World Post)
    (m : Methods World Serializer Comment (option CommentKwargs) QuerySet)
    (serializer : Serializer) (w w0 : World) :
  before_perform_create m serializer w = (inr tt, w0) ->
  let view := comment_viewset log_info request_user post_pk posts_get m in
  match posts_get post_pk w0 with
  | (inl exc, w1) =>
      perform_create view serializer w []
        = (inl exc, w1, [Enter Before; Exit Before; Enter GetKwargs])
  | (inr post, w1) =>
      match post_status post with
      | DRAFT =>
          perform_create view serializer w []
            = (inl (new_PermissionDenied
                      "You can only comment on published posts."),
               w1, [Enter Before; Exit Before; Enter GetKwargs])
      | PUBLISHED =>
          exists r w2,
            serializer_save m serializer
              (Some (mkCommentKwargs request_user post)) w1 = (r, w2)
            /\ In (Enter Perform) (trace (perform_create view serializer) w)
            /\ match r with
               | inl exc =>
                   outcome (perform_create view serializer) w = inl exc
               | inr comment =>
                   In (Enter After) (trace (perform_create view serializer) w)
               end
      end
  end.
Proof.
  intros Hb. cbv zeta. unfold outcome, trace. run_pipeline. cbn.
  rewrite Hb. unfold comment_get_create_kwargs.
  destruct (posts_get post_pk w0) as [[exc|post] w1]; [reflexivity|].
  destruct (post_status post); cbn; [reflexivity|].
  destruct (serializer_save m serializer
              (Some (mkCommentKwargs request_user post)) w1)
    as [[exc|c] w2] eqn:Hs.
  - exists (inl exc), w2. split; [reflexivity|]. cbn. intuition.
  - exists (inr c), w2. split; [reflexivity|].
    destruct (after_perform_create m c serializer w2) as [[e|[]] w3];
      cbn; intuition.
Qed.

Lemma comment_needs_a_published_post_witness :
  perform_create (blog_comments_view (Some 4)) tt [] []
    = (inl (new_PermissionDenied "You can only comment on published posts."),
       [], [Enter Before; Exit Before; Enter GetKwargs])
  /\ perform_create (blog_comments_view (Some 99)) tt [] []
     = (inl does_not_exist_exc, [],
        [Enter Before; Exit Before; Enter GetKwargs]).
Proof.
  split.
  - exact (comment_needs_a_published_post blog_log_info 5 (Some 4)
             blog_posts_get blog_comments_base tt [] [] eq_refl).
  - exact (comment_needs_a_published_post blog_log_info 5 (Some 99)
             blog_posts_get blog_comments_base tt [] [] eq_refl).
Defined.
